(** * objectCounter: the annotation canvas and its calibration protocol

    A shallow embedding of [src/components/ItemCanvas.tsx], [src/App.tsx]
    and the detection boundary ([analyzeItems] and the type declarations).

    JavaScript numbers are IEEE 754 binary64 values; they are embedded as
    Rocq's primitive [float], whose operations are the same correctly
    rounded operations, so that NaN, the infinities and signed zeros behave
    as they do in the program.  React state is embedded by explicit state
    passing: every handler is a function from the state it closes over to
    the state after the batched updates it requests. *)

From Stdlib Require Import Floats ZArith QArith List String Bool.
From Stdlib Require Import DecimalString DecimalNat DecimalFacts Arith.
Import ListNotations.

Set Warnings "-inexact-float".

Set Implicit Arguments.

(** ** Arithmetic interface

    The two coordinate transforms only multiply and divide.  They are
    written once over this interface and read at two instances: binary64,
    which is what the program runs, and the rationals, which is the
    arithmetic the binary64 operations round. *)

Class Arith (T : Type) : Type := {
  amul : T -> T -> T;
  adiv : T -> T -> T;
  athousand : T
}.

#[export] Instance float_arith : Arith float := {|
  amul := PrimFloat.mul;
  adiv := PrimFloat.div;
  athousand := 1000%float
|}.


(** ** Data model (the type declarations of the repository) *)

Module Point.
Record t (T : Type) : Type := mk { x : T; y : T }.
End Point.

Module Surface.
(** The part of the canvas element the transforms read:
    [canvas.width] and [canvas.height]. *)
Record t (T : Type) : Type := mk { width : T; height : T }.
End Surface.

Definition point : Type := Point.t float.

(** [boundingBox: [number, number, number, number]], in the order
    [[ymin, xmin, ymax, xmax]]. *)
Definition BoundingBox : Type := (float * float * float * float)%type.

Module Item.
Record t : Type := mk {
  id : string;
  boundingBox : BoundingBox;
  mask : list point;
  confidence : float;
  areaPx : float;
  widthMm : option float;
  heightMm : option float;
  label : string
}.
End Item.

Definition ItemInstance : Type := Item.t.

Module Calibration.
Record t : Type := mk {
  referenceLengthMm : float;
  pixelsPerMm : option float;
  startPoint : option point;
  endPoint : option point
}.
End Calibration.

Definition CalibrationData : Type := Calibration.t.

Inductive ModelMode : Type := PRO | FLASH.

Module Performance.
Record t : Type := mk {
  latencyMs : float;
  modelName : string;
  estimatedModelSizeMb : float
}.
End Performance.

Module Summary.
Record t : Type := mk {
  totalCount : nat;
  averageConfidence : float;
  totalAreaPx : float
}.
End Summary.

Module Analysis.
Record t : Type := mk {
  items : list ItemInstance;
  imageWidth : float;
  imageHeight : float;
  performance : Performance.t;
  summary : Summary.t
}.
End Analysis.

Definition AnalysisResult : Type := Analysis.t.

Inductive AppState : Type := SETUP | IDLE | PROCESSING | REVIEW | CALIBRATING.

Definition AppState_eqb (a b : AppState) : bool :=
  match a, b with
  | SETUP, SETUP | IDLE, IDLE | PROCESSING, PROCESSING
  | REVIEW, REVIEW | CALIBRATING, CALIBRATING => true
  | _, _ => false
  end.

(** ** JavaScript coercions used by the handlers *)

(** Truthiness of a [string | null]: [null] and the empty string are falsy. *)
Definition truthy_string (s : option string) : bool :=
  match s with
  | Some v => negb (String.eqb v "")
  | None => false
  end.

(** Truthiness of a [number | null]: [null], [0], [-0] and [NaN] are falsy. *)
Definition truthy_number (n : option float) : bool :=
  match n with
  | Some v => negb (is_zero v || is_nan v)
  | None => false
  end.

(** [s || null] on a string. *)
Definition string_or_null (s : string) : option string :=
  if String.eqb s "" then None else Some s.

(** [a === b] where [a : string] and [b : string | null]. *)
Definition id_is (b : option string) (a : string) : bool :=
  match b with
  | Some v => String.eqb a v
  | None => false
  end.

(** [a >= b] on numbers: false as soon as one side is NaN. *)
Definition geb (a b : float) : bool := PrimFloat.leb b a.

(** The length of an array as a number. *)
Definition float_of_nat (n : nat) : float :=
  PrimFloat.of_uint63 (Uint63.of_Z (Z.of_nat n)).

(** ** [Number(v.toFixed(f))]

    [toFixed] prints the decimal [n / 10^f] for the integer [n] nearest to
    [|v| * 10^f] (the larger one on a tie), with the sign of [v] in front,
    and [Number] reads that decimal back as the nearest binary64.  Values
    that are not finite print as their names, and magnitudes from [10^21]
    on print in full, so both come back unchanged.  The string in between
    is not modelled; its numeric value is. *)

Definition Z_to_SF (n : Z) : spec_float :=
  match n with
  | Zpos p => S754_finite false p 0
  | _ => S754_zero false
  end.

(** The nearest binary64 to the non-negative rational [n / d]. *)
Definition nearest_ratio (n d : Z) : float :=
  SF2Prim (SFdiv prec emax (Z_to_SF n) (Z_to_SF d)).

Definition numberToFixed (f : nat) (v : float) : float :=
  match Prim2SF v with
  | S754_nan => nan
  | S754_infinity _ => v
  | S754_zero _ => 0%float
  | S754_finite s m e =>
      (* |v| = num / den exactly *)
      let num := (Zpos m * 2 ^ Z.max e 0)%Z in
      let den := (2 ^ Z.max (- e) 0)%Z in
      if (10 ^ 21 * den <=? num)%Z then v
      else
        let scale := (10 ^ Z.of_nat f)%Z in
        let n := ((2 * num * scale + den) / (2 * den))%Z in
        let r := nearest_ratio n scale in
        if s then PrimFloat.opp r else r
  end.

(** ** Coordinate transform

    The program never names these two functions: it writes the expressions
    in place.  [toRenderSpace] is [(pt.x / 1000) * canvas.width] of [render];
    [toNormalized] is [(x / canvas.width) * 1000] of [handleMouseMove] and
    [handleClick]. *)

Section Transform.
Context {T : Type} `{Arith T}.

Definition toRenderSpace (p : Point.t T) (s : Surface.t T) : Point.t T :=
  Point.mk (amul (adiv (Point.x p) athousand) (Surface.width s))
           (amul (adiv (Point.y p) athousand) (Surface.height s)).

Definition toNormalized (p : Point.t T) (s : Surface.t T) : Point.t T :=
  Point.mk (amul (adiv (Point.x p) (Surface.width s)) athousand)
           (amul (adiv (Point.y p) (Surface.height s)) athousand).
End Transform.

(** ** The canvas component (ItemCanvas.tsx) *)

Local Open Scope float_scope.

(** The canvas element behind [canvasRef]: its drawing surface and the
    origin of [getBoundingClientRect()]. *)
Module Canvas.
Record t : Type := mk {
  surface : Surface.t float;
  rect_left : float;
  rect_top : float
}.
End Canvas.

Module MouseEvent.
Record t : Type := mk { clientX : float; clientY : float }.
End MouseEvent.

(** The props the handlers read.  The two optional callbacks are
    represented by their presence. *)
Module Props.
Record t : Type := mk {
  result : option AnalysisResult;
  calibration : CalibrationData;
  selectedItemId : option string;
  onCalibrationUpdate : bool;
  onMaskUpdate : bool;
  isCalibrating : bool;
  editMode : bool
}.
End Props.

(** The component's own state: [hoveredItemId] and [calPoints]. *)
Module CanvasState.
Record t : Type := mk {
  hoveredItemId : option string;
  calPoints : list point
}.
Definition initial : t := mk None [].
End CanvasState.

(** What a handler asks of its parent. *)
Inductive Callback : Type :=
| OnItemClick (item : ItemInstance)
| OnCalibrationUpdate (p0 p1 : point)
| OnMaskUpdate (itemId : string) (newMask : list point).

(** The predicate of [result.items.find] in [handleMouseMove], at the
    normalized point [(nx, ny)]. *)
Definition contains (nx ny : float) (s : ItemInstance) : bool :=
  let '(ymin, xmin, ymax, xmax) := Item.boundingBox s in
  geb nx xmin && (nx <=? xmax) && geb ny ymin && (ny <=? ymax).

(** Hit test on a point that is already normalized. *)
Definition hitTestNormalized (p : point) (items : list ItemInstance)
  : option ItemInstance :=
  find (contains (Point.x p) (Point.y p)) items.

(** Hit test on a render-space point. *)
Definition hitTest (p : point) (items : list ItemInstance) (s : Surface.t float)
  : option ItemInstance :=
  hitTestNormalized (toNormalized p s) items.

(** The pointer position relative to the canvas. *)
Definition offsetPoint (canvas : Canvas.t) (e : MouseEvent.t) : point :=
  Point.mk (MouseEvent.clientX e - Canvas.rect_left canvas)
           (MouseEvent.clientY e - Canvas.rect_top canvas).

Definition handleMouseMove (props : Props.t) (canvasRef : option Canvas.t)
    (st : CanvasState.t) (e : MouseEvent.t) : CanvasState.t :=
  if Props.isCalibrating props then st
  else
    match canvasRef, Props.result props with
    | Some canvas, Some result =>
        let found :=
          hitTest (offsetPoint canvas e) (Analysis.items result)
                  (Canvas.surface canvas) in
        CanvasState.mk
          (match found with
           | Some s => string_or_null (Item.id s)
           | None => None
           end)
          (CanvasState.calPoints st)
    | _, _ => st
    end.

(** The vertex [handleClick] adds in edit mode. *)
Definition appendVertex (item : ItemInstance) (clickPoint : point)
    (s : Surface.t float) : list point :=
  Item.mask item ++ [toNormalized clickPoint s].

Definition handleClick (props : Props.t) (canvasRef : option Canvas.t)
    (st : CanvasState.t) (e : MouseEvent.t)
  : CanvasState.t * list Callback :=
  match canvasRef with
  | None => (st, [])
  | Some canvas =>
      let p := offsetPoint canvas e in
      if Props.isCalibrating props then
        if (List.length (CanvasState.calPoints st) <? 2)%nat then
          let newPoints := CanvasState.calPoints st ++ [p] in
          match newPoints, Props.onCalibrationUpdate props with
          | [p0; p1], true =>
              (CanvasState.mk (CanvasState.hoveredItemId st) [],
               [OnCalibrationUpdate p0 p1])
          | _, _ =>
              (CanvasState.mk (CanvasState.hoveredItemId st) newPoints, [])
          end
        else (st, [])
      else
        match Props.editMode props && truthy_string (Props.selectedItemId props),
              Props.result props with
        | true, Some result =>
            match find (fun i => id_is (Props.selectedItemId props) (Item.id i))
                       (Analysis.items result),
                  Props.onMaskUpdate props with
            | Some item, true =>
                (st, [OnMaskUpdate (Item.id item)
                        (appendVertex item p (Canvas.surface canvas))])
            | _, _ => (st, [])
            end
        | _, _ =>
            match truthy_string (CanvasState.hoveredItemId st),
                  Props.result props with
            | true, Some result =>
                match find (fun s => id_is (CanvasState.hoveredItemId st) (Item.id s))
                           (Analysis.items result) with
                | Some item => (st, [OnItemClick item])
                | None => (st, [])
                end
            | _, _ => (st, [])
            end
        end
  end.

(** ** The application (App.tsx) *)

Module App.
Record t : Type := mk {
  appState : AppState;
  metadataName : string;
  batchImage : option string;
  result : option AnalysisResult;
  selectedItemId : option string;
  error : option string;
  modelMode : ModelMode;
  isCalibratingInit : bool;
  editMode : bool;
  calibration : CalibrationData
}.

(** The initial values of the [useState] hooks. *)
Definition initial : t :=
  mk SETUP "" None None None None PRO false false
     (Calibration.mk 10 None None None).

Definition setAppState (v : AppState) (a : t) : t :=
  mk v (metadataName a) (batchImage a) (result a) (selectedItemId a)
     (error a) (modelMode a) (isCalibratingInit a) (editMode a) (calibration a).
Definition setMetadataName (v : string) (a : t) : t :=
  mk (appState a) v (batchImage a) (result a) (selectedItemId a)
     (error a) (modelMode a) (isCalibratingInit a) (editMode a) (calibration a).
Definition setBatchImage (v : option string) (a : t) : t :=
  mk (appState a) (metadataName a) v (result a) (selectedItemId a)
     (error a) (modelMode a) (isCalibratingInit a) (editMode a) (calibration a).
Definition setResult (v : option AnalysisResult) (a : t) : t :=
  mk (appState a) (metadataName a) (batchImage a) v (selectedItemId a)
     (error a) (modelMode a) (isCalibratingInit a) (editMode a) (calibration a).
Definition setSelectedItemId (v : option string) (a : t) : t :=
  mk (appState a) (metadataName a) (batchImage a) (result a) v
     (error a) (modelMode a) (isCalibratingInit a) (editMode a) (calibration a).
Definition setError (v : option string) (a : t) : t :=
  mk (appState a) (metadataName a) (batchImage a) (result a) (selectedItemId a)
     v (modelMode a) (isCalibratingInit a) (editMode a) (calibration a).
Definition setModelMode (v : ModelMode) (a : t) : t :=
  mk (appState a) (metadataName a) (batchImage a) (result a) (selectedItemId a)
     (error a) v (isCalibratingInit a) (editMode a) (calibration a).
Definition setIsCalibratingInit (v : bool) (a : t) : t :=
  mk (appState a) (metadataName a) (batchImage a) (result a) (selectedItemId a)
     (error a) (modelMode a) v (editMode a) (calibration a).
Definition setEditMode (v : bool) (a : t) : t :=
  mk (appState a) (metadataName a) (batchImage a) (result a) (selectedItemId a)
     (error a) (modelMode a) (isCalibratingInit a) v (calibration a).
Definition setCalibration (v : CalibrationData) (a : t) : t :=
  mk (appState a) (metadataName a) (batchImage a) (result a) (selectedItemId a)
     (error a) (modelMode a) (isCalibratingInit a) (editMode a) v.
End App.

(** [{ ...s, widthMm: w, heightMm: h }] *)
Definition withMetrics (s : ItemInstance) (w h : float) : ItemInstance :=
  Item.mk (Item.id s) (Item.boundingBox s) (Item.mask s) (Item.confidence s)
          (Item.areaPx s) (Some w) (Some h) (Item.label s).

(** [{ ...i, mask: m }] *)
Definition withMask (i : ItemInstance) (m : list point) : ItemInstance :=
  Item.mk (Item.id i) (Item.boundingBox i) m (Item.confidence i)
          (Item.areaPx i) (Item.widthMm i) (Item.heightMm i) (Item.label i).

(** [{ ...result, items: l }] *)
Definition withItems (r : AnalysisResult) (l : list ItemInstance) : AnalysisResult :=
  Analysis.mk l (Analysis.imageWidth r) (Analysis.imageHeight r)
              (Analysis.performance r) (Analysis.summary r).

Definition updatePhysicalMetrics (items : list ItemInstance) (pxMm : float)
  : list ItemInstance :=
  map (fun s =>
         let '(ymin, xmin, ymax, xmax) := Item.boundingBox s in
         let widthPx := (xmax - xmin) * 5 in
         let heightPx := (ymax - ymin) * 5 in
         withMetrics s (numberToFixed 2 (widthPx / pxMm))
                       (numberToFixed 2 (heightPx / pxMm)))
      items.

(** The part of [analyzeItems] that follows [JSON.parse]: [rawItems] is
    [rawResult.items] and [latencyMs] the measured round trip. *)
Definition analyzeItems (rawItems : list ItemInstance) (latencyMs : float)
    (modelMode : ModelMode) : AnalysisResult :=
  let items := rawItems in
  let totalCount := List.length items in
  let avgConf :=
    fold_left (fun acc s => acc + Item.confidence s) items 0
    / (if (totalCount =? 0)%nat then 1 else float_of_nat totalCount) in
  let totalArea := fold_left (fun acc s => acc + Item.areaPx s) items 0 in
  Analysis.mk items 0 0
    (Performance.mk latencyMs
       (match modelMode with
        | PRO => "Standard (FP32)"%string
        | FLASH => "Quantized (INT8)"%string
        end)
       (match modelMode with PRO => 450 | FLASH => 28.4 end))
    (Summary.mk totalCount avgConf totalArea).

(** [processBatch] once [analyzeItems] has answered: [response] is the
    parsed item list with its latency, or [None] when the call threw.  The
    [await] is collapsed, so the calibration read is the current one. *)
Definition processBatch (a : App.t) (response : option (list ItemInstance * float))
  : App.t :=
  match App.batchImage a with
  | None => a
  | Some _ =>
      match response with
      | Some (rawItems, latencyMs) =>
          let analysis := analyzeItems rawItems latencyMs (App.modelMode a) in
          let analysis :=
            match Calibration.pixelsPerMm (App.calibration a) with
            | Some pxMm =>
                if truthy_number (Some pxMm)
                then withItems analysis
                       (updatePhysicalMetrics (Analysis.items analysis) pxMm)
                else analysis
            | None => analysis
            end in
          App.setAppState REVIEW (App.setResult (Some analysis) (App.setError None a))
      | None =>
          App.setAppState IDLE
            (App.setError
               (Some "Analysis failed. Try a more descriptive item name or clearer batch image."%string)
               a)
      end
  end.

(** [handleBatchUpload], at the [onload] of its reader. *)
Definition handleBatchUpload (a : App.t) (image : string) : App.t :=
  App.setError None
    (App.setResult None (App.setAppState IDLE (App.setBatchImage (Some image) a))).

(** [startCalibration] up to the timer it sets. *)
Definition startCalibration (a : App.t) : App.t :=
  App.setIsCalibratingInit true a.

(** The callback [startCalibration] hands to [setTimeout]. *)
Definition startCalibration_timeout (a : App.t) : App.t :=
  App.setAppState CALIBRATING (App.setIsCalibratingInit false a).

(** The [onChange] of the reference-length input; [v] is what
    [parseFloat] made of the text. *)
Definition setReferenceLength (a : App.t) (v : float) : App.t :=
  let c := App.calibration a in
  App.setCalibration
    (Calibration.mk v (Calibration.pixelsPerMm c)
                    (Calibration.startPoint c) (Calibration.endPoint c))
    a.

Definition handleCalibrationUpdate (a : App.t) (p0 p1 : point) : App.t :=
  let dx := Point.x p1 - Point.x p0 in
  let dy := Point.y p1 - Point.y p0 in
  let distPx := sqrt (dx * dx + dy * dy) in
  let pxPerMm := distPx / Calibration.referenceLengthMm (App.calibration a) in
  let a1 :=
    App.setCalibration
      (Calibration.mk (Calibration.referenceLengthMm (App.calibration a))
                      (Some pxPerMm) (Some p0) (Some p1))
      a in
  let a2 :=
    match App.result a with
    | Some result =>
        App.setResult
          (Some (withItems result
                   (updatePhysicalMetrics (Analysis.items result) pxPerMm)))
          a1
    | None => a1
    end in
  App.setAppState REVIEW a2.

Definition handleMaskUpdate (a : App.t) (itemId : string) (newMask : list point)
  : App.t :=
  match App.result a with
  | None => a
  | Some result =>
      let updatedItems :=
        map (fun i => if String.eqb (Item.id i) itemId then withMask i newMask else i)
            (Analysis.items result) in
      App.setResult (Some (withItems result updatedItems)) a
  end.

Definition clearSelectedMask (a : App.t) : App.t :=
  match truthy_string (App.selectedItemId a), App.result a with
  | true, Some result =>
      let updatedItems :=
        map (fun i => if id_is (App.selectedItemId a) (Item.id i)
                      then withMask i [] else i)
            (Analysis.items result) in
      App.setResult (Some (withItems result updatedItems)) a
  | _, _ => a
  end.

(** The cancel button: [setAppState(AppState.REVIEW)]. *)
Definition cancelCalibration (a : App.t) : App.t := App.setAppState REVIEW a.

(** The props [App] passes to [ItemCanvas]. *)
Definition propsOf (a : App.t) : Props.t :=
  Props.mk (App.result a) (App.calibration a) (App.selectedItemId a)
           true true
           (AppState_eqb (App.appState a) CALIBRATING)
           (App.editMode a).

(** [App]'s answer to one callback of the canvas. *)
Definition dispatch (a : App.t) (c : Callback) : App.t :=
  match c with
  | OnItemClick item => App.setSelectedItemId (Some (Item.id item)) a
  | OnCalibrationUpdate p0 p1 => handleCalibrationUpdate a p0 p1
  | OnMaskUpdate itemId newMask => handleMaskUpdate a itemId newMask
  end.

(** ** The page as a transition system

    The state of the page is the state of [App], the state of the mounted
    canvas and the number of [startCalibration] timers still to fire.  An
    event is one thing the operator or the environment does; it is enabled
    when the control behind it is rendered and not disabled. *)

Module Sys.
Record t : Type := mk {
  app : App.t;
  canvas : CanvasState.t;
  timers : nat
}.
Definition initial : t := mk App.initial CanvasState.initial 0.
End Sys.

Inductive Event : Type :=
| GoSetup
| TypeName (name : string)
| ContinueToWorkspace
| BatchLoaded (image : string)
| AnalyzeBatch (response : option (list ItemInstance * float))
| TypeReferenceLength (v : float)
| Scale
| TimerFires
| CancelCalibration
| ToggleEditMode
| Abort
| ClearMask
| Deselect
| MouseMove (c : Canvas.t) (e : MouseEvent.t)
| Click (c : Canvas.t) (e : MouseEvent.t).

Definition isSome {A : Type} (o : option A) : bool :=
  match o with Some _ => true | None => false end.

(** [selectedItem] of [App]: non-null when the selection names an item. *)
Definition selectedItem (a : App.t) : option ItemInstance :=
  match truthy_string (App.selectedItemId a), App.result a with
  | true, Some result =>
      find (fun i => id_is (App.selectedItemId a) (Item.id i)) (Analysis.items result)
  | _, _ => None
  end.

Definition enabled (s : Sys.t) (ev : Event) : bool :=
  let a := Sys.app s in
  let st := App.appState a in
  let busy := AppState_eqb st CALIBRATING || App.isCalibratingInit a in
  match ev with
  | GoSetup => true
  | TypeName _ => AppState_eqb st SETUP
  | ContinueToWorkspace =>
      AppState_eqb st SETUP && negb (String.eqb (App.metadataName a) "")
  | BatchLoaded _ =>
      negb (AppState_eqb st SETUP) && negb (AppState_eqb st PROCESSING) && negb busy
  | AnalyzeBatch _ => isSome (App.batchImage a) && AppState_eqb st IDLE
  | TypeReferenceLength _ | Scale =>
      negb (AppState_eqb st SETUP) && isSome (App.result a)
      && negb (AppState_eqb st CALIBRATING)
  | TimerFires => (0 <? Sys.timers s)%nat
  | CancelCalibration => AppState_eqb st CALIBRATING
  | ToggleEditMode => isSome (App.batchImage a) && isSome (App.result a)
  | Abort => isSome (App.batchImage a)
  | ClearMask =>
      isSome (App.batchImage a) && isSome (selectedItem a) && App.editMode a
  | Deselect => isSome (App.batchImage a) && isSome (selectedItem a)
  | MouseMove _ _ | Click _ _ => isSome (App.batchImage a)
  end.

Definition fire (s : Sys.t) (ev : Event) : Sys.t :=
  let a := Sys.app s in
  let cv := Sys.canvas s in
  let n := Sys.timers s in
  match ev with
  | GoSetup => Sys.mk (App.setAppState SETUP a) cv n
  | TypeName name => Sys.mk (App.setMetadataName name a) cv n
  | ContinueToWorkspace => Sys.mk (App.setAppState IDLE a) cv n
  | BatchLoaded image => Sys.mk (handleBatchUpload a image) cv n
  | AnalyzeBatch response => Sys.mk (processBatch a response) cv n
  | TypeReferenceLength v => Sys.mk (setReferenceLength a v) cv n
  | Scale => Sys.mk (startCalibration a) cv (S n)
  | TimerFires => Sys.mk (startCalibration_timeout a) cv (pred n)
  | CancelCalibration => Sys.mk (cancelCalibration a) cv n
  | ToggleEditMode => Sys.mk (App.setEditMode (negb (App.editMode a)) a) cv n
  | Abort =>
      (* the canvas is unmounted with the image *)
      Sys.mk (App.setEditMode false
                (App.setSelectedItemId None
                   (App.setResult None (App.setBatchImage None a))))
             CanvasState.initial n
  | ClearMask => Sys.mk (clearSelectedMask a) cv n
  | Deselect => Sys.mk (App.setSelectedItemId None a) cv n
  | MouseMove c e => Sys.mk a (handleMouseMove (propsOf a) (Some c) cv e) n
  | Click c e =>
      let '(cv', calls) := handleClick (propsOf a) (Some c) cv e in
      Sys.mk (fold_left dispatch calls a) cv' n
  end.

Definition step (s : Sys.t) (ev : Event) : Sys.t :=
  if enabled s ev then fire s ev else s.

Definition run (s : Sys.t) (evs : list Event) : Sys.t := fold_left step evs s.

(** ** The calibration state machine of the specification, read off the
    page state *)

Inductive CalibrationPhase : Type :=
| Inactive
| Armed
| AwaitingSecondPoint.

Definition phase (s : Sys.t) : CalibrationPhase :=
  if AppState_eqb (App.appState (Sys.app s)) CALIBRATING then
    match CanvasState.calPoints (Sys.canvas s) with
    | [] => Armed
    | _ :: _ => AwaitingSecondPoint
    end
  else Inactive.

(** A reference length the guard of the specification would accept. *)
Definition positiveFinite (v : float) : bool :=
  (0 <? v) && negb (is_infinity v).

(** The pixel distance [handleCalibrationUpdate] computes. *)
Definition euclidean (p0 p1 : point) : float :=
  let dx := Point.x p1 - Point.x p0 in
  let dy := Point.y p1 - Point.y p0 in
  sqrt (dx * dx + dy * dy).


(** ** Round trip in binary64 on a grid

    [roundtripError c d] is how far a coordinate [c] lands from itself after
    [toRenderSpace] and [toNormalized] on a surface of dimension [d]; the two
    axes run the same expressions.  [dimsWithin] walks [k] dimensions from
    [d] upwards and, for each, [n] coordinates from [c0] upwards. *)




(** ** A concrete session used to exercise the statements *)

(** Boxes A and B of the specification's tie-break scenario. *)
Definition itemA : ItemInstance :=
  Item.mk "a" (0, 0, 500, 500) [Point.mk 0 0; Point.mk 10 0] 1 100 None None "washer".

Definition itemB : ItemInstance :=
  Item.mk "b" (100, 100, 600, 600) [] 1 100 None None "washer".

(** A canvas of 1000 by 1000 pixels at the origin of the viewport. *)
Definition unitCanvas : Canvas.t := Canvas.mk (Surface.mk 1000 1000) 0 0.

Definition pointerAt (px py : float) : MouseEvent.t := MouseEvent.mk px py.

(** From start-up to the review of a two-item result. *)
Definition toReview : list Event :=
  [ TypeName "washers"; ContinueToWorkspace; BatchLoaded "data:image/jpeg;base64,AAAA";
    AnalyzeBatch (Some ([itemA; itemB], 120)) ].

(** ... then into calibration ... *)
Definition toArmed : list Event := toReview ++ [ Scale; TimerFires ].

(** ... and to the first reference point. *)
Definition toAwaiting : list Event := toArmed ++ [ Click unitCanvas (pointerAt 0 0) ].


(** ** Vocabulary of the statements *)


(** The sides of the bounding box, in normalized units. *)
Definition boxWidth (s : ItemInstance) : float :=
  let '(ymin, xmin, ymax, xmax) := Item.boundingBox s in xmax - xmin.

Definition boxHeight (s : ItemInstance) : float :=
  let '(ymin, xmin, ymax, xmax) := Item.boundingBox s in ymax - ymin.

(** Everything of an item but its two physical measurements. *)
Definition sameButMetrics (s s' : ItemInstance) : Prop :=
  Item.id s' = Item.id s
  /\ Item.boundingBox s' = Item.boundingBox s
  /\ Item.mask s' = Item.mask s
  /\ Item.confidence s' = Item.confidence s
  /\ Item.areaPx s' = Item.areaPx s
  /\ Item.label s' = Item.label s.

(** The measurements [updatePhysicalMetrics] gives [s] at scale [pxMm]. *)
Definition measuredAt (pxMm : float) (s s' : ItemInstance) : Prop :=
  Item.widthMm s' = Some (numberToFixed 2 (boxWidth s * 5 / pxMm))
  /\ Item.heightMm s' = Some (numberToFixed 2 (boxHeight s * 5 / pxMm)).

(** Review with item A selected and edit mode on. *)
Definition toEditing : list Event :=
  toReview ++ [ MouseMove unitCanvas (pointerAt 300 300); Click unitCanvas (pointerAt 300 300);
                ToggleEditMode ].

(** Review with edit mode on, item A under the pointer and nothing
    selected. *)
Definition toEditingUnselected : list Event :=
  toReview ++ [ MouseMove unitCanvas (pointerAt 300 300); ToggleEditMode ].

(** What one click can ask of [App]: nothing, or exactly one callback. *)
Inductive clickOutcome : list Callback -> Prop :=
| NoCallback : clickOutcome []
| ItemClicked item : clickOutcome [OnItemClick item]
| PassCompleted p0 p1 : clickOutcome [OnCalibrationUpdate p0 p1]
| MaskGrown itemId newMask : clickOutcome [OnMaskUpdate itemId newMask].




(** ** Proof automation *)

Create HintDb canvas.

#[export] Hint Constructors clickOutcome : canvas.

Ltac break_match :=
  match goal with
  | |- context [match ?x with _ => _ end] => destruct x
  | |- context [if ?x then _ else _] => destruct x
  end.

(** Closes [In (OnItemClick _) (snd branch) -> _] when no path through
    [branch] fires [onItemClick]. *)
Ltac never_item_click :=
  repeat break_match; cbn [snd In];
  let H := fresh "H" in
  intro H; repeat (destruct H as [H | H]); solve [discriminate H | contradiction].

(** ** The render pipeline ([render] of ItemCanvas.tsx)

    [render] talks to the 2D context.  Its embedding returns what it asks
    of the context, call by call and assignment by assignment, in order. *)

Module Ctx.
Inductive cmd : Type :=
| clearRect (x y w h : float)
| drawImage (x y w h : float)
| save
| restore
| translate (x y : float)
| scale (sx sy : float)
| beginPath
| moveTo (x y : float)
| lineTo (x y : float)
| closePath
| fill
| stroke
| arc (x y r startAngle endAngle : float)
| strokeRect (x y w h : float)
| fillRect (x y w h : float)
| fillText (text : string) (x y : float)
| fillStyle (v : string)
| strokeStyle (v : string)
| lineWidth (v : float)
| setLineDash (segments : list float)
| font (v : string)
| textAlign (v : string)
| textBaseline (v : string)
| shadowBlur (v : float)
| shadowColor (v : string).
End Ctx.

(** The canvas element as [render] meets it: the client width of its parent
    if it has one, whether [getContext('2d')] answers, what a dimension
    reads back as once assigned, and the context's [measureText] as a
    function of the font and the text. *)
Module CanvasElement.
Record t : Type := mk {
  parentClientWidth : option float;
  hasContext : bool;
  dimension : float -> float;
  measureText : string -> string -> float
}.
End CanvasElement.

(** The loaded image: [img.width] and [img.height]. *)
Module ImageElement.
Record t : Type := mk { width : float; height : float }.
End ImageElement.

Definition Math_PI : float := 3.141592653589793.

(** [`#${index + 1}`] *)
Definition badgeLabel (index : nat) : string :=
  String.append "#" (NilZero.string_of_uint (Nat.to_uint (index + 1))).

(** [`bold ${isSelected ? '16px' : '14px'} sans-serif`] *)
Definition badgeFont (isSelected : bool) : string :=
  String.append "bold "
    (String.append (if isSelected then "16px" else "14px") " sans-serif").

(** The centroid [(cx, cy)] of [render]: the mean of the mask vertices,
    taken to render space. *)
Definition centroid (mask : list point) (s : Surface.t float) : point :=
  let cx := fold_left (fun acc p => acc + Point.x p) mask 0 in
  let cy := fold_left (fun acc p => acc + Point.y p) mask 0 in
  Point.mk ((cx / float_of_nat (List.length mask) / 1000) * Surface.width s)
           ((cy / float_of_nat (List.length mask) / 1000) * Surface.height s).

(** [item.mask.forEach((pt, i) => ...)] of the polygon path, from index [i]. *)
Fixpoint maskPath (i : nat) (mask : list point) (s : Surface.t float)
  : list Ctx.cmd :=
  match mask with
  | [] => []
  | pt :: rest =>
      let x := (Point.x pt / 1000) * Surface.width s in
      let y := (Point.y pt / 1000) * Surface.height s in
      (if (i =? 0)%nat then Ctx.moveTo x y else Ctx.lineTo x y)
        :: maskPath (S i) rest s
  end.

(** The handle circles of edit mode. *)
Definition maskHandles (mask : list point) (s : Surface.t float) : list Ctx.cmd :=
  flat_map
    (fun pt =>
       let x := (Point.x pt / 1000) * Surface.width s in
       let y := (Point.y pt / 1000) * Surface.height s in
       [ Ctx.fillStyle "#ffffff"; Ctx.strokeStyle "#2563eb"; Ctx.beginPath;
         Ctx.arc x y 5 0 (Math_PI * 2); Ctx.fill; Ctx.stroke ])
    mask.

(** The body of [result.items.forEach((item, index) => ...)]. *)
Definition itemCmds (props : Props.t) (showMasks showBoxes : bool)
    (st : CanvasState.t) (cv : CanvasElement.t) (s : Surface.t float)
    (index : nat) (item : ItemInstance) : list Ctx.cmd :=
  let isHovered := id_is (CanvasState.hoveredItemId st) (Item.id item) in
  let isSelected := id_is (Props.selectedItemId props) (Item.id item) in
  let effectScale := if isHovered then 1.05 else 1.0 in
  let c := centroid (Item.mask item) s in
  let cx := Point.x c in
  let cy := Point.y c in
  [Ctx.save]
  ++ (if isHovered
      then [ Ctx.translate cx cy; Ctx.scale effectScale effectScale;
             Ctx.translate (- cx) (- cy) ]
      else [])
  ++ (if showMasks
      then
        [Ctx.beginPath] ++ maskPath 0 (Item.mask item) s ++ [Ctx.closePath]
        ++ (if isSelected
            then [ Ctx.fillStyle "rgba(59, 130, 246, 0.7)"; Ctx.strokeStyle "#ffffff";
                   Ctx.lineWidth 4; Ctx.stroke; Ctx.strokeStyle "#2563eb";
                   Ctx.lineWidth 2 ]
            else [ Ctx.fillStyle (if isHovered then "rgba(16, 185, 129, 0.5)"
                                  else "rgba(16, 185, 129, 0.3)");
                   Ctx.strokeStyle (if isHovered then "#059669" else "#10b981");
                   Ctx.lineWidth 2 ])
        ++ [Ctx.fill; Ctx.stroke]
        ++ (if Props.editMode props && isSelected
            then maskHandles (Item.mask item) s
            else [])
      else [])
  ++ (if showBoxes
      then
        let '(ymin, xmin, ymax, xmax) := Item.boundingBox item in
        let x := (xmin / 1000) * Surface.width s in
        let y := (ymin / 1000) * Surface.height s in
        let w := ((xmax - xmin) / 1000) * Surface.width s in
        let h := ((ymax - ymin) / 1000) * Surface.height s in
        [ Ctx.strokeStyle (if isSelected then "#3b82f6" else "rgba(255, 255, 255, 0.6)");
          Ctx.setLineDash (if isSelected then [] else [5; 5]);
          Ctx.lineWidth (if isSelected then 3 else 2);
          Ctx.strokeRect x y w h;
          Ctx.setLineDash [] ]
      else [])
  ++ (if isHovered || isSelected
      then
        let label := badgeLabel index in
        let fnt := badgeFont isSelected in
        let textWidth := CanvasElement.measureText cv fnt label in
        let padding := 6 in
        [ Ctx.font fnt;
          Ctx.fillStyle (if isSelected then "#2563eb" else "#059669");
          Ctx.fillRect (cx - textWidth / 2 - padding) (cy - 10 - padding)
                       (textWidth + padding * 2) (20 + padding * 2);
          Ctx.fillStyle "#ffffff"; Ctx.textAlign "center"; Ctx.textBaseline "middle";
          Ctx.fillText label cx cy ]
      else [])
  ++ [Ctx.restore].

(** [result.items.forEach], from index [index]. *)
Fixpoint itemsCmds (props : Props.t) (showMasks showBoxes : bool)
    (st : CanvasState.t) (cv : CanvasElement.t) (s : Surface.t float)
    (index : nat) (items : list ItemInstance) : list Ctx.cmd :=
  match items with
  | [] => []
  | item :: rest =>
      itemCmds props showMasks showBoxes st cv s index item
      ++ itemsCmds props showMasks showBoxes st cv s (S index) rest
  end.

(** The end caps and buffered points: one circle of radius [r] per point. *)
Definition pointCaps (r : float) (pts : list point) : list Ctx.cmd :=
  flat_map
    (fun p =>
       [ Ctx.fillStyle "#ffffff"; Ctx.strokeStyle "#f59e0b"; Ctx.lineWidth 2;
         Ctx.beginPath; Ctx.arc (Point.x p) (Point.y p) r 0 (Math_PI * 2);
         Ctx.fill; Ctx.stroke ])
    pts.

(** "Visible Calibration Line in REVIEW". *)
Definition calibrationLineCmds (props : Props.t) : list Ctx.cmd :=
  match Calibration.startPoint (Props.calibration props),
        Calibration.endPoint (Props.calibration props),
        Props.isCalibrating props with
  | Some startPoint, Some endPoint, false =>
      [ Ctx.save; Ctx.strokeStyle "#f59e0b"; Ctx.setLineDash [8; 4];
        Ctx.lineWidth 3; Ctx.shadowBlur 4; Ctx.shadowColor "rgba(0,0,0,0.5)";
        Ctx.beginPath;
        Ctx.moveTo (Point.x startPoint) (Point.y startPoint);
        Ctx.lineTo (Point.x endPoint) (Point.y endPoint);
        Ctx.stroke ]
      ++ pointCaps 6 [startPoint; endPoint]
      ++ [Ctx.restore]
  | _, _, _ => []
  end.

(** "Calibration UI Overlay". *)
Definition calibrationOverlayCmds (props : Props.t) (st : CanvasState.t)
    (s : Surface.t float) : list Ctx.cmd :=
  if Props.isCalibrating props then
    [ Ctx.fillStyle "rgba(0, 0, 0, 0.5)";
      Ctx.fillRect 0 0 (Surface.width s) (Surface.height s) ]
    ++ match CanvasState.calPoints st with
       | [] => []
       | first :: others =>
           [ Ctx.strokeStyle "#f59e0b"; Ctx.lineWidth 4; Ctx.beginPath;
             Ctx.moveTo (Point.x first) (Point.y first) ]
           ++ match others with
              | [second] => [Ctx.lineTo (Point.x second) (Point.y second)]
              | _ => []
              end
           ++ [Ctx.stroke]
           ++ pointCaps 8 (CanvasState.calPoints st)
       end
  else [].

(** [canvas.parentElement?.clientWidth || 800] *)
Definition containerWidthOf (cv : CanvasElement.t) : float :=
  match CanvasElement.parentClientWidth cv with
  | Some v => if truthy_number (Some v) then v else 800
  | None => 800
  end.

(** The surface [render] gives the canvas. *)
Definition sizedSurface (cv : CanvasElement.t) (img : ImageElement.t)
  : Surface.t float :=
  let containerWidth := containerWidthOf cv in
  let scale := containerWidth / ImageElement.width img in
  Surface.mk (CanvasElement.dimension cv containerWidth)
             (CanvasElement.dimension cv (ImageElement.height img * scale)).

(** [render]: nothing when the canvas, the image or the context is
    missing; otherwise the surface it sets and the calls it makes. *)
Definition render (props : Props.t) (showMasks showBoxes : bool)
    (st : CanvasState.t) (canvasRef : option CanvasElement.t)
    (imgRef : option ImageElement.t)
  : option (Surface.t float * list Ctx.cmd) :=
  match canvasRef, imgRef with
  | Some cv, Some img =>
      if CanvasElement.hasContext cv then
        let s := sizedSurface cv img in
        Some
          (s,
           [ Ctx.clearRect 0 0 (Surface.width s) (Surface.height s);
             Ctx.drawImage 0 0 (Surface.width s) (Surface.height s) ]
           ++ match Props.result props, Props.isCalibrating props with
              | Some result, false =>
                  itemsCmds props showMasks showBoxes st cv s 0 (Analysis.items result)
              | _, _ => []
              end
           ++ calibrationLineCmds props
           ++ calibrationOverlayCmds props st s)
      else None
  | _, _ => None
  end.

(** ** The selection panel of [App]

    [findIndex] of arrays; [None] stands for the [-1] of a failed search. *)
Fixpoint findIndex {A : Type} (f : A -> bool) (l : list A) : option nat :=
  match l with
  | [] => None
  | a :: rest => if f a then Some 0%nat else option_map S (findIndex f rest)
  end.

(** [selectedItemIndex], where a result exists. *)
Definition selectedItemIndex (a : App.t) : option nat :=
  match App.result a with
  | Some result =>
      findIndex (fun i => id_is (App.selectedItemId a) (Item.id i))
                (Analysis.items result)
  | None => None
  end.

(** [selectedItem] as the source writes it:
    [selectedItemId && result ? result.items[selectedItemIndex!] : null];
    an index of [-1] reads [undefined]. *)
Definition selectedItemByIndex (a : App.t) : option ItemInstance :=
  match truthy_string (App.selectedItemId a), App.result a with
  | true, Some result =>
      match selectedItemIndex a with
      | Some i => nth_error (Analysis.items result) i
      | None => None
      end
  | _, _ => None
  end.

(** ** Vocabulary of the further statements *)

(** A state the page can be in: one reached from start-up by events. *)
Definition reachable (s : Sys.t) : Prop := exists evs, s = run Sys.initial evs.

(** An identifier slot that is empty or holds a non-empty string. *)
Definition properId (o : option string) : Prop := o <> Some ""%string.

(** The calibration record holds a scale and both end points, or none of
    the three. *)
Definition allOrNothing (c : CalibrationData) : Prop :=
  (Calibration.pixelsPerMm c = None
   /\ Calibration.startPoint c = None /\ Calibration.endPoint c = None)
  \/ (exists px p0 p1,
        Calibration.pixelsPerMm c = Some px
        /\ Calibration.startPoint c = Some p0 /\ Calibration.endPoint c = Some p1).

(** Everything of an item but its mask. *)
Definition sameButMask (i i' : ItemInstance) : Prop :=
  withMask i' (Item.mask i) = i.

(** Nesting of [save]/[restore] after [cmds], starting at depth [d];
    [None] when a [restore] has no [save] to answer. *)
Fixpoint saveDepth (d : nat) (cmds : list Ctx.cmd) : option nat :=
  match cmds with
  | [] => Some d
  | Ctx.save :: rest => saveDepth (S d) rest
  | Ctx.restore :: rest =>
      match d with
      | O => None
      | S d' => saveDepth d' rest
      end
  | _ :: rest => saveDepth d rest
  end.

Definition isSaveRestore (c : Ctx.cmd) : bool :=
  match c with
  | Ctx.save | Ctx.restore => true
  | _ => false
  end.

(** The texts written, with their anchor. *)
Definition textsOf (cmds : list Ctx.cmd) : list (string * point) :=
  flat_map (fun c => match c with
                     | Ctx.fillText t x y => [(t, Point.mk x y)]
                     | _ => []
                     end) cmds.

(** The points path segments start at or lead to. *)
Definition pathPointsOf (cmds : list Ctx.cmd) : list point :=
  flat_map (fun c => match c with
                     | Ctx.moveTo x y | Ctx.lineTo x y => [Point.mk x y]
                     | _ => []
                     end) cmds.

(** Calls that build or paint a path. *)
Definition isPathCall (c : Ctx.cmd) : bool :=
  match c with
  | Ctx.beginPath | Ctx.moveTo _ _ | Ctx.lineTo _ _ | Ctx.closePath
  | Ctx.fill | Ctx.stroke | Ctx.arc _ _ _ _ _ => true
  | _ => false
  end.


(** A canvas element with a context whose dimensions read back as
    assigned and whose texts measure 7 pixels a character. *)
Definition plainCanvas : CanvasElement.t :=
  CanvasElement.mk (Some 1000) true (fun v => v)
                   (fun _ text => float_of_nat (String.length text) * 7).

Definition squareImage : ImageElement.t := ImageElement.mk 2000 2000.

(** The part of a frame that shows the items. *)
Definition itemLayer (props : Props.t) (showMasks showBoxes : bool)
    (st : CanvasState.t) (cv : CanvasElement.t) (s : Surface.t float)
  : list Ctx.cmd :=
  match Props.result props, Props.isCalibrating props with
  | Some result, false =>
      itemsCmds props showMasks showBoxes st cv s 0 (Analysis.items result)
  | _, _ => []
  end.

(** The review frame of the editing session on the plain canvas. *)
Definition editingFrame : option (Surface.t float * list Ctx.cmd) :=
  let s := run Sys.initial toEditing in
  render (propsOf (Sys.app s)) true true (Sys.canvas s)
         (Some plainCanvas) (Some squareImage).

(** Takes the block of one item apart: fixes the flags, distributes the
    projection over the pieces and discharges the mask pieces. *)
Ltac item_block :=
  unfold itemCmds; cbv zeta;
  match goal with
  | |- context [Item.boundingBox ?item] =>
      destruct (Item.boundingBox item) as [[[? ?] ?] ?]
  end;
  repeat match goal with
         | |- context [if ?b then _ else _] =>
             match b with
             | context [if _ then _ else _] => fail 1
             | _ => destruct b eqn:?
             end
         end.

(** * Properties *)

(** ** [Number(v.toFixed(2))] on sample values

    Ties go up in magnitude (0.125), the binary value decides otherwise
    (1.005 is below the tie, 8.345 above it), and values that are not
    finite come back as they are. *)
Example numberToFixed_samples :
  map (numberToFixed 2)
      [166.66666666666666; 1.005; 8.345; 0.125; -0.125; -0.001; 0; nan; infinity; 1e21]
  = [166.67; 1; 8.35; 0.13; -0.13; -0; 0; nan; infinity; 1e21].
Proof. vm_compute. reflexivity. Qed.

(** ** Calibration: the second click *)

Lemma handleCalibrationUpdate_calibration (a : App.t) (p0 p1 : point) :
  App.calibration (handleCalibrationUpdate a p0 p1)
  = Calibration.mk
      (Calibration.referenceLengthMm (App.calibration a))
      (Some (euclidean p0 p1 / Calibration.referenceLengthMm (App.calibration a)))
      (Some p0) (Some p1).
Proof.
  unfold handleCalibrationUpdate, euclidean.
  destruct (App.result a); reflexivity.
Qed.





(** ** Calibration: arming *)

Lemma step_Scale (s : Sys.t) :
  enabled s Scale = true ->
  step s Scale
  = Sys.mk (startCalibration (Sys.app s)) (Sys.canvas s) (S (Sys.timers s)).
Proof. intro H; unfold step; rewrite H; reflexivity. Qed.

Lemma arm_eq (s : Sys.t) :
  enabled s Scale = true ->
  run s [Scale; TimerFires]
  = Sys.mk (startCalibration_timeout (startCalibration (Sys.app s)))
           (Sys.canvas s) (Sys.timers s).
Proof.
  intro H. unfold run; cbn [fold_left].
  rewrite (step_Scale s H). reflexivity.
Qed.

(** C1, as the program has it.  The Scale control never looks at
    [referenceLengthMm]: whenever it is offered, pressing it and letting
    its timer fire puts the page in [CALIBRATING] with the calibration
    record and the click buffer untouched, and the pass that follows
    divides the pixel distance by whatever reference length is stored. *)
Theorem arming_is_unconditional (s : Sys.t) :
  enabled s Scale = true ->
  let s' := run s [Scale; TimerFires] in
  App.appState (Sys.app s') = CALIBRATING
  /\ App.calibration (Sys.app s') = App.calibration (Sys.app s)
  /\ Sys.canvas s' = Sys.canvas s
  /\ forall p0 p1,
       Calibration.pixelsPerMm
         (App.calibration (handleCalibrationUpdate (Sys.app s') p0 p1))
       = Some (euclidean p0 p1
               / Calibration.referenceLengthMm (App.calibration (Sys.app s))).
Proof.
  intros H s'. unfold s'. rewrite (arm_eq s H).
  cbn [Sys.app Sys.canvas].
  repeat split.
  intros p0 p1. rewrite handleCalibrationUpdate_calibration. reflexivity.
Qed.

(** Arming with a reference length that is not a number. *)
Lemma arming_is_unconditional_witness :
  let s := run Sys.initial (toReview ++ [TypeReferenceLength nan]) in
  enabled s Scale = true
  /\ App.appState (Sys.app (run s [Scale; TimerFires])) = CALIBRATING.
Proof.
  intro s.
  assert (H : enabled s Scale = true) by reflexivity.
  exact (conj H (proj1 (arming_is_unconditional s H))).
Defined.

(** C1, as the specification has it, fails: with a reference length of 0
    the page is armed all the same, and the two clicks of the arithmetic
    scenario then publish an infinite scale.  A NaN reference length is
    armed too and publishes NaN. *)
Lemma arming_guard_counterexample :
  let s := run Sys.initial (toReview ++ [TypeReferenceLength 0]) in
  let t := run Sys.initial (toReview ++ [TypeReferenceLength nan]) in
  let clicks := [Scale; TimerFires; Click unitCanvas (pointerAt 0 0);
                 Click unitCanvas (pointerAt 30 40)] in
  positiveFinite (Calibration.referenceLengthMm (App.calibration (Sys.app s))) = false
  /\ phase s = Inactive
  /\ phase (run s [Scale; TimerFires]) = Armed
  /\ Calibration.pixelsPerMm (App.calibration (Sys.app (run s clicks)))
     = Some infinity
  /\ positiveFinite (Calibration.referenceLengthMm (App.calibration (Sys.app t))) = false
  /\ phase (run t [Scale; TimerFires]) = Armed
  /\ Calibration.pixelsPerMm (App.calibration (Sys.app (run t clicks)))
     = Some nan.
Proof. vm_compute. repeat split. Qed.

(** ** Calibration: the click buffer *)

Lemma cancel_keeps_canvas (s : Sys.t) :
  Sys.canvas (step s CancelCalibration) = Sys.canvas s.
Proof. unfold step; destruct (enabled s CancelCalibration); reflexivity. Qed.

Lemma scale_keeps_canvas (s : Sys.t) :
  Sys.canvas (step s Scale) = Sys.canvas s
  /\ Sys.canvas (step s TimerFires) = Sys.canvas s.
Proof.
  unfold step; destruct (enabled s Scale), (enabled s TimerFires); split; reflexivity.
Qed.

(** C2 at its failing input.  One reference point is clicked and the pass
    is cancelled: the page is back in review with the point still in the
    buffer.  Arming again starts with that point, and a single click then
    completes a pass whose start point is the stale one. *)
Theorem cancel_leaves_buffered_point :
  let s := run Sys.initial (toAwaiting ++ [CancelCalibration]) in
  let s2 := run s [Scale; TimerFires] in
  let s3 := step s2 (Click unitCanvas (pointerAt 30 40)) in
  phase s = Inactive
  /\ CanvasState.calPoints (Sys.canvas s) = [Point.mk 0 0]
  /\ App.appState (Sys.app s2) = CALIBRATING
  /\ CanvasState.calPoints (Sys.canvas s2) = [Point.mk 0 0]
  /\ App.calibration (Sys.app s3)
     = Calibration.mk 10 (Some 5) (Some (Point.mk 0 0)) (Some (Point.mk 30 40))
  /\ phase s3 = Inactive.
Proof. vm_compute. repeat split. Qed.

(** ** Coordinate transform: round trip *)

(** What the generic transforms are at binary64: the expressions of the
    source, operation for operation. *)
Lemma toNormalized_binary64 (p : point) (s : Surface.t float) :
  toNormalized p s
  = Point.mk ((Point.x p / Surface.width s) * 1000)
             ((Point.y p / Surface.height s) * 1000).
Proof. reflexivity. Qed.

Lemma toRenderSpace_binary64 (p : point) (s : Surface.t float) :
  toRenderSpace p s
  = Point.mk ((Point.x p / 1000) * Surface.width s)
             ((Point.y p / 1000) * Surface.height s).
Proof. reflexivity. Qed.






(** ** Hit test *)

Section FindFirst.
Context {A : Type} (f : A -> bool).


End FindFirst.

(** Containment is the four inclusive comparisons, on binary64. *)
Lemma contains_inclusive (nx ny : float) (s : ItemInstance) :
  contains nx ny s = true
  <-> let '(ymin, xmin, ymax, xmax) := Item.boundingBox s in
      (xmin <=? nx) = true /\ (nx <=? xmax) = true
      /\ (ymin <=? ny) = true /\ (ny <=? ymax) = true.
Proof.
  unfold contains, geb.
  destruct (Item.boundingBox s) as [[[ymin xmin] ymax] xmax].
  rewrite !andb_true_iff. tauto.
Qed.

(** The bounds belong to the box: the corner (500,500) of A hits A, the
    corner (600,600) of B hits B, and a point past both hits nothing. *)
Example hitTest_on_the_bounds :
  hitTestNormalized (Point.mk 500 500) [itemA; itemB] = Some itemA
  /\ hitTestNormalized (Point.mk 600 600) [itemA; itemB] = Some itemB
  /\ hitTestNormalized (Point.mk 600.5 600) [itemA; itemB] = None
  /\ hitTestNormalized (Point.mk nan 300) [itemA; itemB] = None.
Proof. vm_compute. repeat split. Qed.


(** ** Mask editor *)

Lemma id_is_of_found (sel : option string) (l : list ItemInstance) (item : ItemInstance) :
  find (fun i => id_is sel (Item.id i)) l = Some item ->
  sel = Some (Item.id item).
Proof.
  intro H. apply find_some in H. destruct H as [_ H].
  destruct sel as [v |]; [| discriminate].
  cbn in H. apply String.eqb_eq in H. congruence.
Qed.



Lemma selectedItem_inv (a : App.t) (item : ItemInstance) :
  selectedItem a = Some item ->
  truthy_string (App.selectedItemId a) = true
  /\ exists r, App.result a = Some r
       /\ find (fun i => id_is (App.selectedItemId a) (Item.id i)) (Analysis.items r)
          = Some item.
Proof.
  unfold selectedItem. intro H.
  destruct (truthy_string (App.selectedItemId a)); [| discriminate].
  destruct (App.result a) as [r |]; [| discriminate].
  split; [reflexivity | exists r; split; [reflexivity | exact H]].
Qed.




(** ** Physical measurements *)

Lemma Forall2_map_self {A : Type} (R : A -> A -> Prop) (g : A -> A) (l : list A) :
  (forall a, R a (g a)) -> Forall2 R l (map g l).
Proof.
  intro H. induction l as [| h t IH]; cbn [map]; constructor; [apply H | exact IH].
Qed.

Lemma updatePhysicalMetrics_item (s : ItemInstance) (pxMm : float) :
  updatePhysicalMetrics [s] pxMm
  = [withMetrics s (numberToFixed 2 (boxWidth s * 5 / pxMm))
                   (numberToFixed 2 (boxHeight s * 5 / pxMm))].
Proof.
  unfold updatePhysicalMetrics, boxWidth, boxHeight. cbn [map].
  destruct (Item.boundingBox s) as [[[ymin xmin] ymax] xmax]. reflexivity.
Qed.

Lemma updatePhysicalMetrics_map (items : list ItemInstance) (pxMm : float) :
  updatePhysicalMetrics items pxMm
  = map (fun s => withMetrics s (numberToFixed 2 (boxWidth s * 5 / pxMm))
                                (numberToFixed 2 (boxHeight s * 5 / pxMm)))
        items.
Proof.
  unfold updatePhysicalMetrics. apply map_ext. intro s.
  unfold boxWidth, boxHeight.
  destruct (Item.boundingBox s) as [[[ymin xmin] ymax] xmax]. reflexivity.
Qed.

Lemma updatePhysicalMetrics_idempotent (items : list ItemInstance) (pxMm : float) :
  updatePhysicalMetrics (updatePhysicalMetrics items pxMm) pxMm
  = updatePhysicalMetrics items pxMm.
Proof.
  rewrite !updatePhysicalMetrics_map, map_map. apply map_ext. intro s. reflexivity.
Qed.

Lemma handleCalibrationUpdate_result (a : App.t) (p0 p1 : point) :
  App.result (handleCalibrationUpdate a p0 p1)
  = option_map
      (fun r => withItems r
         (updatePhysicalMetrics (Analysis.items r)
            (euclidean p0 p1 / Calibration.referenceLengthMm (App.calibration a))))
      (App.result a).
Proof.
  unfold handleCalibrationUpdate, euclidean.
  destruct a as [st nm img res sel err mode init edit cal].
  destruct res; reflexivity.
Qed.

(** C10.  [updatePhysicalMetrics] keeps the list in length and order, keeps
    the identifier, box, mask, confidence, area and label of every item,
    and gives every item, with or without mask vertices, a width and a
    height.  Item B, whose mask is empty, is measured like any other. *)
Theorem updatePhysicalMetrics_frame (items : list ItemInstance) (pxMm : float) :
  List.length (updatePhysicalMetrics items pxMm) = List.length items
  /\ Forall2 (fun s s' =>
                sameButMetrics s s'
                /\ Item.widthMm s' <> None /\ Item.heightMm s' <> None)
             items (updatePhysicalMetrics items pxMm)
  /\ Item.mask itemB = []
  /\ updatePhysicalMetrics [itemB] 5
     = [withMetrics itemB 500 500].
Proof.
  split; [| split; [| split]].
  - unfold updatePhysicalMetrics. apply length_map.
  - rewrite updatePhysicalMetrics_map. apply Forall2_map_self.
    intro s. unfold sameButMetrics. cbn. repeat split; discriminate.
  - reflexivity.
  - vm_compute. reflexivity.
Qed.

Lemma handleClick_outcome (props : Props.t) (canvasRef : option Canvas.t)
    (st : CanvasState.t) (e : MouseEvent.t) :
  clickOutcome (snd (handleClick props canvasRef st e)).
Proof.
  unfold handleClick.
  repeat (break_match; cbn [snd]); auto with canvas.
Qed.

Lemma handleMaskUpdate_calibration (a : App.t) (itemId : string) (m : list point) :
  App.calibration (handleMaskUpdate a itemId m) = App.calibration a.
Proof.
  unfold handleMaskUpdate. destruct (App.result a); reflexivity.
Qed.

Lemma processBatch_calibration (a : App.t) (response : option (list ItemInstance * float)) :
  App.calibration (processBatch a response) = App.calibration a.
Proof.
  unfold processBatch.
  destruct (App.batchImage a); [| reflexivity].
  destruct response as [[raw lat] |]; reflexivity.
Qed.

Lemma clearSelectedMask_calibration (a : App.t) :
  App.calibration (clearSelectedMask a) = App.calibration a.
Proof.
  unfold clearSelectedMask.
  destruct (truthy_string _), (App.result a); reflexivity.
Qed.

(** The scale changes only when a pass completes, and then the items are
    measured again at the new scale. *)
Lemma pixelsPerMm_changes_only_by_pass (s : Sys.t) (ev : Event) :
  let a := Sys.app s in
  let a' := Sys.app (step s ev) in
  Calibration.pixelsPerMm (App.calibration a')
  = Calibration.pixelsPerMm (App.calibration a)
  \/ exists px,
       Calibration.pixelsPerMm (App.calibration a') = Some px
       /\ App.result a'
          = option_map
              (fun r => withItems r (updatePhysicalMetrics (Analysis.items r) px))
              (App.result a).
Proof.
  intros a a'. unfold a', step.
  destruct (enabled s ev); [| left; reflexivity].
  destruct ev; cbn [fire Sys.app];
    try (left; reflexivity).
  - left. fold a. rewrite processBatch_calibration. reflexivity.
  - left. fold a. rewrite clearSelectedMask_calibration. reflexivity.
  - fold a.
    pose proof (handleClick_outcome (propsOf a) (Some c) (Sys.canvas s) e) as Hout.
    destruct (handleClick (propsOf a) (Some c) (Sys.canvas s) e) as [cv' calls].
    cbn [snd] in Hout. cbn [Sys.app].
    destruct Hout; cbn [fold_left dispatch].
    + left; reflexivity.
    + left; reflexivity.
    + right. eexists. split.
      * rewrite handleCalibrationUpdate_calibration. reflexivity.
      * apply handleCalibrationUpdate_result.
    + left. rewrite handleMaskUpdate_calibration. reflexivity.
Qed.

(** C7.  Every item, and so every item with a mask, comes out of
    [updatePhysicalMetrics] with its box width and height times 5, divided
    by the scale and rounded to two decimals.  That is what a completed
    pass does to the result, at the scale it has just published; no other
    event changes the scale.  The measurements read only the box and the
    scale, so measuring twice at one scale is measuring once.  At 3 pixels
    per millimetre a box 500 wide and high measures 833.33. *)
Theorem metrics_follow_scale (items : list ItemInstance) (pxMm : float)
    (a : App.t) (p0 p1 : point) (s : Sys.t) (ev : Event) :
  Forall2 (measuredAt pxMm) items (updatePhysicalMetrics items pxMm)
  /\ updatePhysicalMetrics (updatePhysicalMetrics items pxMm) pxMm
     = updatePhysicalMetrics items pxMm
  /\ (let px := euclidean p0 p1 / Calibration.referenceLengthMm (App.calibration a) in
      Calibration.pixelsPerMm (App.calibration (handleCalibrationUpdate a p0 p1))
      = Some px
      /\ App.result (handleCalibrationUpdate a p0 p1)
         = option_map
             (fun r => withItems r (updatePhysicalMetrics (Analysis.items r) px))
             (App.result a))
  /\ (Calibration.pixelsPerMm (App.calibration (Sys.app (step s ev)))
      = Calibration.pixelsPerMm (App.calibration (Sys.app s))
      \/ exists px,
           Calibration.pixelsPerMm (App.calibration (Sys.app (step s ev))) = Some px
           /\ App.result (Sys.app (step s ev))
              = option_map
                  (fun r => withItems r (updatePhysicalMetrics (Analysis.items r) px))
                  (App.result (Sys.app s)))
  /\ updatePhysicalMetrics [itemA] 3 = [withMetrics itemA 833.33 833.33].
Proof.
  split; [| split; [| split; [| split]]].
  - rewrite updatePhysicalMetrics_map. apply Forall2_map_self.
    intro i. split; reflexivity.
  - apply updatePhysicalMetrics_idempotent.
  - cbn zeta. rewrite handleCalibrationUpdate_calibration. split.
    + reflexivity.
    + apply handleCalibrationUpdate_result.
  - apply pixelsPerMm_changes_only_by_pass.
  - vm_compute. reflexivity.
Qed.

(** ** Selection by click *)

Lemma In_singleton_inv {A : Type} (a b : A) : In a [b] -> b = a.
Proof. intros [H | []]; exact H. Qed.

(** C8, as the program has it.  A click hands [item] to [onItemClick]
    exactly when the page is not calibrating, the mask editor is not
    engaged (edit mode off, or nothing selected), and the identifier left
    by the last hit test names [item] first in the result.  So clicks
    processed while calibrating, or in edit mode with an item selected,
    never fire it. *)
Theorem onItemClick_fires_iff (props : Props.t) (c : Canvas.t)
    (st : CanvasState.t) (e : MouseEvent.t) (item : ItemInstance) :
  In (OnItemClick item) (snd (handleClick props (Some c) st e))
  <-> (Props.isCalibrating props = false
       /\ Props.editMode props && truthy_string (Props.selectedItemId props) = false
       /\ truthy_string (CanvasState.hoveredItemId st) = true
       /\ exists r,
            Props.result props = Some r
            /\ find (fun s => id_is (CanvasState.hoveredItemId st) (Item.id s))
                    (Analysis.items r)
               = Some item).
Proof.
  unfold handleClick.
  destruct (Props.isCalibrating props).
  - split; [never_item_click | intros (H & _); discriminate].
  - destruct (Props.editMode props && truthy_string (Props.selectedItemId props)).
    + split; [never_item_click | intros (_ & H & _); discriminate].
    + destruct (truthy_string (CanvasState.hoveredItemId st));
        [| split; [never_item_click | intros (_ & _ & H & _); discriminate]].
      destruct (Props.result props) as [r |]; cbv iota;
        [| split; [intros [] | intros (_ & _ & _ & r' & H & _); discriminate]].
      destruct (find (fun s => id_is (CanvasState.hoveredItemId st) (Item.id s))
                     (Analysis.items r)) as [found |] eqn:Hfind; cbn [snd].
      * split.
        -- intro H. apply In_singleton_inv in H. injection H as ->.
           repeat split. exists r. split; [reflexivity | exact Hfind].
        -- intros (_ & _ & _ & r' & [= <-] & H).
           rewrite Hfind in H. injection H as ->. left. reflexivity.
      * split; [intros [] |].
        intros (_ & _ & _ & r' & [= <-] & H).
        rewrite Hfind in H. discriminate.
Qed.

(** C8, as the specification has it, fails: in edit mode with nothing
    selected and item A under the pointer, the click fires [onItemClick]
    with A, and A becomes the selection. *)
Lemma onItemClick_in_edit_mode_counterexample :
  let s := run Sys.initial toEditingUnselected in
  App.editMode (Sys.app s) = true
  /\ Props.editMode (propsOf (Sys.app s)) = true
  /\ Props.isCalibrating (propsOf (Sys.app s)) = false
  /\ App.selectedItemId (Sys.app s) = None
  /\ snd (handleClick (propsOf (Sys.app s)) (Some unitCanvas) (Sys.canvas s) (pointerAt 300 300))
     = [OnItemClick itemA]
  /\ App.selectedItemId (Sys.app (step s (Click unitCanvas (pointerAt 300 300))))
     = Some "a"%string.
Proof. vm_compute. repeat split. Qed.

(** ** The detection boundary *)






(** * Further properties of the code *)

(** ** Invariants of the page *)

Lemma run_app (s : Sys.t) (evs1 evs2 : list Event) :
  run s (evs1 ++ evs2) = run (run s evs1) evs2.
Proof. unfold run. apply fold_left_app. Qed.

(** What every step keeps is true of every reachable state. *)
Lemma reachable_ind (P : Sys.t -> Prop) :
  P Sys.initial ->
  (forall s ev, P s -> P (step s ev)) ->
  forall s, reachable s -> P s.
Proof.
  intros Hinit Hstep s [evs ->].
  induction evs as [| ev evs IH] using rev_ind.
  - exact Hinit.
  - rewrite run_app. cbn [run fold_left]. apply Hstep. exact IH.
Qed.

Lemma handleMouseMove_calPoints (props : Props.t) (canvasRef : option Canvas.t)
    (st : CanvasState.t) (e : MouseEvent.t) :
  CanvasState.calPoints (handleMouseMove props canvasRef st e)
  = CanvasState.calPoints st.
Proof.
  unfold handleMouseMove.
  destruct (Props.isCalibrating props), canvasRef, (Props.result props); reflexivity.
Qed.

Lemma handleClick_buffer_bound (props : Props.t) (canvasRef : option Canvas.t)
    (st : CanvasState.t) (e : MouseEvent.t) :
  Props.onCalibrationUpdate props = true ->
  (List.length (CanvasState.calPoints st) <= 1)%nat ->
  (List.length (CanvasState.calPoints (fst (handleClick props canvasRef st e))) <= 1)%nat.
Proof.
  intros Hcb Hlen. unfold handleClick.
  destruct canvasRef as [canvas |]; [| exact Hlen].
  destruct (Props.isCalibrating props).
  - destruct (CanvasState.calPoints st) as [| q [| q' l]] eqn:Hpts.
    + cbn. auto.
    + cbn. rewrite Hcb. cbn. auto.
    + cbn in Hlen. inversion Hlen as [| ? H]. inversion H.
  - repeat (break_match; cbn [fst]); exact Hlen.
Qed.

(** X1.  The click buffer of a reachable page never holds more than one
    point: the second click of a pass is handed to [App] and the buffer is
    emptied in the same update. *)
Theorem buffer_holds_at_most_one_point (s : Sys.t) :
  reachable s ->
  (List.length (CanvasState.calPoints (Sys.canvas s)) <= 1)%nat.
Proof.
  revert s. apply reachable_ind.
  - cbn. auto.
  - intros s ev IH. unfold step.
    destruct (enabled s ev); [| exact IH].
    destruct ev; cbn [fire Sys.canvas]; try exact IH.
    + cbn. auto.
    + rewrite handleMouseMove_calPoints. exact IH.
    + pose proof (handleClick_buffer_bound (propsOf (Sys.app s)) (Some c)
                    (Sys.canvas s) e eq_refl IH) as H.
      destruct (handleClick (propsOf (Sys.app s)) (Some c) (Sys.canvas s) e)
        as [cv' calls].
      exact H.
Qed.

Lemma buffer_holds_at_most_one_point_witness :
  reachable (run Sys.initial toAwaiting)
  /\ (List.length (CanvasState.calPoints (Sys.canvas (run Sys.initial toAwaiting))) <= 1)%nat.
Proof.
  assert (H : reachable (run Sys.initial toAwaiting)) by (exists toAwaiting; reflexivity).
  exact (conj H (buffer_holds_at_most_one_point H)).
Defined.

Lemma string_or_null_proper (v : string) : properId (string_or_null v).
Proof.
  unfold properId, string_or_null.
  destruct (String.eqb v "") eqn:E; [discriminate |].
  intros [= ->]. rewrite String.eqb_refl in E. discriminate.
Qed.

Lemma handleMouseMove_hover_proper (props : Props.t) (canvasRef : option Canvas.t)
    (st : CanvasState.t) (e : MouseEvent.t) :
  properId (CanvasState.hoveredItemId st) ->
  properId (CanvasState.hoveredItemId (handleMouseMove props canvasRef st e)).
Proof.
  intro H. unfold handleMouseMove.
  destruct (Props.isCalibrating props); [exact H |].
  destruct canvasRef as [canvas |]; [| exact H].
  destruct (Props.result props) as [r |]; [| exact H].
  cbn [CanvasState.hoveredItemId].
  destruct (hitTest _ _ _); [apply string_or_null_proper | discriminate].
Qed.

Lemma handleClick_hover (props : Props.t) (canvasRef : option Canvas.t)
    (st : CanvasState.t) (e : MouseEvent.t) :
  CanvasState.hoveredItemId (fst (handleClick props canvasRef st e))
  = CanvasState.hoveredItemId st.
Proof.
  unfold handleClick. repeat (break_match; cbn [fst]); reflexivity.
Qed.

(** The item a click hands over carries the hovered identifier, which is
    not empty. *)
Lemma handleClick_item_is_hovered (props : Props.t) (canvasRef : option Canvas.t)
    (st : CanvasState.t) (e : MouseEvent.t) (item : ItemInstance) :
  snd (handleClick props canvasRef st e) = [OnItemClick item] ->
  CanvasState.hoveredItemId st = Some (Item.id item)
  /\ Item.id item <> ""%string.
Proof.
  unfold handleClick.
  destruct canvasRef as [canvas |]; [| discriminate].
  destruct (Props.isCalibrating props).
  { repeat (break_match; cbn [snd]); discriminate. }
  destruct (Props.editMode props && truthy_string (Props.selectedItemId props)),
           (Props.result props) as [r |]; cbv iota.
  - repeat (break_match; cbn [snd]); discriminate.
  - destruct (truthy_string (CanvasState.hoveredItemId st)); discriminate.
  - destruct (truthy_string (CanvasState.hoveredItemId st)) eqn:Ht; [| discriminate].
    destruct (find (fun s => id_is (CanvasState.hoveredItemId st) (Item.id s))
                   (Analysis.items r)) as [found |] eqn:Hf; [| discriminate].
    cbn [snd]. intros [= <-].
    pose proof (id_is_of_found _ _ Hf) as Hid. split; [exact Hid |].
    rewrite Hid in Ht. cbn in Ht. intro E. rewrite E in Ht. discriminate.
  - destruct (truthy_string (CanvasState.hoveredItemId st)); discriminate.
Qed.

Lemma handleCalibrationUpdate_keeps (a : App.t) (p0 p1 : point) :
  App.selectedItemId (handleCalibrationUpdate a p0 p1) = App.selectedItemId a
  /\ App.editMode (handleCalibrationUpdate a p0 p1) = App.editMode a
  /\ App.batchImage (handleCalibrationUpdate a p0 p1) = App.batchImage a.
Proof.
  unfold handleCalibrationUpdate.
  destruct a as [st nm img res sel err mode init edit cal].
  destruct res; repeat split.
Qed.

(** X2.  On a reachable page the hovered and the selected identifier are
    never the empty string: hovering records [id || null], and a selection
    is always the identifier that was hovered. *)
Theorem identifiers_are_never_empty (s : Sys.t) :
  reachable s ->
  properId (CanvasState.hoveredItemId (Sys.canvas s))
  /\ properId (App.selectedItemId (Sys.app s)).
Proof.
  revert s. apply reachable_ind.
  - split; discriminate.
  - intros s ev [Hh Hs]. unfold step.
    destruct (enabled s ev); [| split; assumption].
    destruct ev; cbn [fire Sys.canvas Sys.app];
      try (split; [exact Hh | exact Hs]).
    + split; [exact Hh |]. unfold processBatch.
      destruct (App.batchImage (Sys.app s)); [| exact Hs].
      destruct response as [[raw lat] |]; exact Hs.
    + split; discriminate.
    + split; [exact Hh |]. unfold clearSelectedMask.
      destruct (truthy_string _), (App.result (Sys.app s)); exact Hs.
    + split; [exact Hh | discriminate].
    + split; [apply handleMouseMove_hover_proper, Hh | exact Hs].
    + pose proof (handleClick_outcome (propsOf (Sys.app s)) (Some c) (Sys.canvas s) e) as Hout.
      pose proof (handleClick_hover (propsOf (Sys.app s)) (Some c) (Sys.canvas s) e) as Hhov.
      pose proof (handleClick_item_is_hovered (propsOf (Sys.app s)) (Some c) (Sys.canvas s) e) as Hitem.
      destruct (handleClick (propsOf (Sys.app s)) (Some c) (Sys.canvas s) e)
        as [cv' calls].
      cbn [fst snd] in *. cbn [Sys.canvas Sys.app]. rewrite Hhov.
      split; [exact Hh |].
      destruct Hout; cbn [fold_left dispatch].
      * exact Hs.
      * destruct (Hitem item eq_refl) as [_ Hne].
        cbn. unfold properId. intros [= E]. exact (Hne E).
      * rewrite (proj1 (handleCalibrationUpdate_keeps (Sys.app s) p0 p1)). exact Hs.
      * unfold handleMaskUpdate. destruct (App.result (Sys.app s)); exact Hs.
Qed.

Lemma identifiers_are_never_empty_witness :
  reachable (run Sys.initial toEditing)
  /\ properId (App.selectedItemId (Sys.app (run Sys.initial toEditing))).
Proof.
  assert (H : reachable (run Sys.initial toEditing)) by (exists toEditing; reflexivity).
  exact (conj H (proj2 (identifiers_are_never_empty H))).
Defined.

Lemma allOrNothing_set (ref px : float) (p0 p1 : point) :
  allOrNothing (Calibration.mk ref (Some px) (Some p0) (Some p1)).
Proof. right. exists px, p0, p1. repeat split. Qed.

(** X3.  On a reachable page the calibration record is whole: it has a
    scale and both end points of its line, or none of the three.  Editing
    the reference length touches none of them. *)
Theorem calibration_record_is_whole (s : Sys.t) :
  reachable s ->
  allOrNothing (App.calibration (Sys.app s)).
Proof.
  revert s. apply reachable_ind.
  - left. repeat split.
  - intros s ev IH. unfold step.
    destruct (enabled s ev); [| exact IH].
    destruct ev; cbn [fire Sys.app]; try exact IH.
    + rewrite processBatch_calibration. exact IH.
    + rewrite clearSelectedMask_calibration. exact IH.
    + pose proof (handleClick_outcome (propsOf (Sys.app s)) (Some c) (Sys.canvas s) e) as Hout.
      destruct (handleClick (propsOf (Sys.app s)) (Some c) (Sys.canvas s) e)
        as [cv' calls].
      cbn [snd] in Hout. cbn [Sys.app].
      destruct Hout; cbn [fold_left dispatch].
      * exact IH.
      * exact IH.
      * rewrite handleCalibrationUpdate_calibration. apply allOrNothing_set.
      * rewrite handleMaskUpdate_calibration. exact IH.
Qed.

Lemma calibration_record_is_whole_witness :
  let evs := toAwaiting ++ [Click unitCanvas (pointerAt 30 40); TypeReferenceLength 25] in
  reachable (run Sys.initial evs)
  /\ allOrNothing (App.calibration (Sys.app (run Sys.initial evs))).
Proof.
  intro evs.
  assert (H : reachable (run Sys.initial evs)) by (exists evs; reflexivity).
  exact (conj H (calibration_record_is_whole H)).
Defined.

(** ** The calibration pass as a whole *)




Lemma updatePhysicalMetrics_masks (items : list ItemInstance) (pxMm : float) :
  map Item.mask (updatePhysicalMetrics items pxMm) = map Item.mask items
  /\ map Item.id (updatePhysicalMetrics items pxMm) = map Item.id items.
Proof.
  rewrite updatePhysicalMetrics_map, !map_map. split; reflexivity.
Qed.

(** The masks of the result, if there is one. *)
Lemma handleCalibrationUpdate_masks (a : App.t) (p0 p1 : point) :
  option_map (fun r => map Item.mask (Analysis.items r))
             (App.result (handleCalibrationUpdate a p0 p1))
  = option_map (fun r => map Item.mask (Analysis.items r)) (App.result a).
Proof.
  rewrite handleCalibrationUpdate_result.
  destruct (App.result a) as [r |]; [| reflexivity].
  cbn [option_map withItems Analysis.items].
  rewrite (proj1 (updatePhysicalMetrics_masks _ _)). reflexivity.
Qed.

(** X5.  While the page is calibrating, the pointer neither hovers, nor
    selects, nor edits: a move changes nothing at all, and a click leaves
    the hover, the selection, the edit flag and every mask as they were. *)
Theorem calibrating_pointer_is_captured (a : App.t) (cv : CanvasState.t)
    (c : Canvas.t) (e : MouseEvent.t) (n : nat) :
  App.appState a = CALIBRATING ->
  let s := Sys.mk a cv n in
  step s (MouseMove c e) = s
  /\ CanvasState.hoveredItemId (Sys.canvas (step s (Click c e)))
     = CanvasState.hoveredItemId cv
  /\ App.selectedItemId (Sys.app (step s (Click c e))) = App.selectedItemId a
  /\ App.editMode (Sys.app (step s (Click c e))) = App.editMode a
  /\ option_map (fun r => map Item.mask (Analysis.items r))
                (App.result (Sys.app (step s (Click c e))))
     = option_map (fun r => map Item.mask (Analysis.items r)) (App.result a).
Proof.
  intros Hst s. unfold s, step.
  split.
  - destruct (enabled _ (MouseMove c e)); [| reflexivity].
    cbn [fire Sys.app Sys.canvas Sys.timers].
    unfold handleMouseMove, propsOf. cbn [Props.isCalibrating].
    rewrite Hst. reflexivity.
  - destruct (enabled _ (Click c e)); [| repeat split].
    cbn [fire Sys.app Sys.canvas Sys.timers].
    unfold handleClick, propsOf.
    cbn [Props.isCalibrating Props.onCalibrationUpdate]. rewrite Hst.
    cbn [AppState_eqb].
    destruct (CanvasState.calPoints cv) as [| q [| q' l]]; cbn.
    + repeat split.
    + pose proof (handleCalibrationUpdate_keeps a q (offsetPoint c e)) as (H1 & H2 & _).
      pose proof (handleCalibrationUpdate_masks a q (offsetPoint c e)) as H3.
      repeat split; assumption.
    + repeat split.
Qed.

Lemma calibrating_pointer_is_captured_witness :
  let s := run Sys.initial toAwaiting in
  App.appState (Sys.app s) = CALIBRATING
  /\ step s (MouseMove unitCanvas (pointerAt 300 300)) = s
  /\ App.selectedItemId (Sys.app (step s (Click unitCanvas (pointerAt 300 300)))) = None.
Proof.
  intro s.
  assert (H : App.appState (Sys.app s) = CALIBRATING) by reflexivity.
  pose proof (calibrating_pointer_is_captured (Sys.app s) (Sys.canvas s) unitCanvas
                (pointerAt 300 300) (Sys.timers s) H) as (H1 & _ & H3 & _).
  exact (conj H (conj H1 H3)).
Defined.

(** ** Selection *)

Lemma find_some_exists {A : Type} (f : A -> bool) (l : list A) (a : A) :
  In a l -> f a = true -> exists b, find f l = Some b.
Proof.
  intros Hin Hf. destruct (find f l) as [b |] eqn:E; [exists b; reflexivity |].
  rewrite (find_none f l E a Hin) in Hf. discriminate.
Qed.

(** X6.  Moving the pointer over an item and clicking there selects it:
    when the page is not calibrating and the mask editor is not engaged,
    a move followed by a click at the same place leaves as selection the
    identifier of the item the hit test finds there, and the selection
    panel shows an item with that identifier. *)
Theorem move_then_click_selects_hit (a : App.t) (cv : CanvasState.t)
    (c : Canvas.t) (e : MouseEvent.t) (n : nat) (r : AnalysisResult)
    (hit : ItemInstance) :
  isSome (App.batchImage a) = true ->
  AppState_eqb (App.appState a) CALIBRATING = false ->
  App.editMode a && truthy_string (App.selectedItemId a) = false ->
  App.result a = Some r ->
  hitTest (offsetPoint c e) (Analysis.items r) (Canvas.surface c) = Some hit ->
  Item.id hit <> ""%string ->
  let s' := run (Sys.mk a cv n) [MouseMove c e; Click c e] in
  App.selectedItemId (Sys.app s') = Some (Item.id hit)
  /\ CanvasState.hoveredItemId (Sys.canvas s') = Some (Item.id hit)
  /\ exists item, selectedItem (Sys.app s') = Some item /\ Item.id item = Item.id hit.
Proof.
  intros Hmount Hcal Hedit Hres Hhit Hne s'.
  assert (Hnull : string_or_null (Item.id hit) = Some (Item.id hit)).
  { unfold string_or_null. destruct (String.eqb (Item.id hit) "") eqn:E; [| reflexivity].
    apply String.eqb_eq in E. contradiction. }
  assert (Htruthy : truthy_string (Some (Item.id hit)) = true).
  { cbn. destruct (String.eqb (Item.id hit) "") eqn:E; [| reflexivity].
    apply String.eqb_eq in E. contradiction. }
  assert (Hmove : step (Sys.mk a cv n) (MouseMove c e)
                  = Sys.mk a (CanvasState.mk (Some (Item.id hit))
                                             (CanvasState.calPoints cv)) n).
  { unfold step, enabled. cbn [Sys.app]. rewrite Hmount.
    cbn [fire Sys.app Sys.canvas Sys.timers].
    unfold handleMouseMove, propsOf. cbn [Props.isCalibrating Props.result].
    rewrite Hcal, Hres, Hhit, Hnull. reflexivity. }
  pose proof (find_some _ _ Hhit) as [Hin _].
  destruct (find_some_exists (fun s => id_is (Some (Item.id hit)) (Item.id s))
              (Analysis.items r) hit Hin) as [item Hfind].
  { cbn. apply String.eqb_refl. }
  pose proof (id_is_of_found _ _ Hfind) as Hid. injection Hid as Hid.
  assert (Hclick : s' = Sys.mk (App.setSelectedItemId (Some (Item.id item)) a)
                               (CanvasState.mk (Some (Item.id hit))
                                               (CanvasState.calPoints cv)) n).
  { unfold s', run. cbn [fold_left]. rewrite Hmove.
    unfold step, enabled. cbn [Sys.app]. rewrite Hmount.
    cbn [fire Sys.app Sys.canvas Sys.timers].
    unfold handleClick, propsOf.
    cbn [Props.isCalibrating Props.editMode Props.selectedItemId Props.result
         CanvasState.hoveredItemId].
    rewrite Hcal, Hedit, Hres, Htruthy, Hfind. reflexivity. }
  rewrite Hclick. cbn [Sys.app Sys.canvas App.selectedItemId App.setSelectedItemId
                       CanvasState.hoveredItemId].
  rewrite <- Hid.
  split; [reflexivity | split; [reflexivity |]].
  unfold selectedItem. cbn [App.selectedItemId App.setSelectedItemId App.result].
  rewrite Hres, Htruthy, Hfind. exists item. split; [reflexivity | congruence].
Qed.

Lemma move_then_click_selects_hit_witness :
  let s := run Sys.initial toReview in
  let e := pointerAt 550 550 in
  isSome (App.batchImage (Sys.app s)) = true
  /\ AppState_eqb (App.appState (Sys.app s)) CALIBRATING = false
  /\ App.editMode (Sys.app s) && truthy_string (App.selectedItemId (Sys.app s)) = false
  /\ App.result (Sys.app s)
     = Some (analyzeItems [itemA; itemB] 120 PRO)
  /\ hitTest (offsetPoint unitCanvas e) [itemA; itemB] (Canvas.surface unitCanvas)
     = Some itemB
  /\ Item.id itemB <> ""%string
  /\ App.selectedItemId (Sys.app (run s [MouseMove unitCanvas e; Click unitCanvas e]))
     = Some "b"%string.
Proof.
  intros s e.
  assert (H1 : isSome (App.batchImage (Sys.app s)) = true) by reflexivity.
  assert (H2 : AppState_eqb (App.appState (Sys.app s)) CALIBRATING = false) by reflexivity.
  assert (H3 : App.editMode (Sys.app s) && truthy_string (App.selectedItemId (Sys.app s))
               = false) by reflexivity.
  assert (H4 : App.result (Sys.app s) = Some (analyzeItems [itemA; itemB] 120 PRO))
    by reflexivity.
  assert (H5 : hitTest (offsetPoint unitCanvas e) [itemA; itemB] (Canvas.surface unitCanvas)
               = Some itemB) by reflexivity.
  assert (H6 : Item.id itemB <> ""%string) by discriminate.
  exact (conj H1 (conj H2 (conj H3 (conj H4 (conj H5 (conj H6
           (proj1 (move_then_click_selects_hit (Sys.app s) (Sys.canvas s) unitCanvas e
                     (Sys.timers s) H1 H2 H3 H4 H5 H6)))))))).
Defined.

(** [findIndex] and [find] walk the list alike. *)
Lemma find_by_findIndex {A : Type} (f : A -> bool) (l : list A) :
  find f l = match findIndex f l with
             | Some i => nth_error l i
             | None => None
             end.
Proof.
  induction l as [| a rest IH]; [reflexivity |].
  cbn [find findIndex]. destruct (f a); [reflexivity |].
  rewrite IH. destruct (findIndex f rest); reflexivity.
Qed.

Lemma findIndex_first {A : Type} (f : A -> bool) (l : list A) (i : nat) :
  findIndex f l = Some i ->
  (i < List.length l)%nat
  /\ forall j b, (j < i)%nat -> nth_error l j = Some b -> f b = false.
Proof.
  revert i. induction l as [| a rest IH]; intros i; cbn [findIndex]; [discriminate |].
  destruct (f a) eqn:Hfa.
  - intros [= <-]. split; [cbn; apply Nat.lt_0_succ |].
    intros j b Hj. inversion Hj.
  - destruct (findIndex f rest) as [k |]; [| discriminate].
    cbn [option_map]. intros [= <-].
    destruct (IH k eq_refl) as [Hlt Hbefore].
    split; [cbn; apply -> Nat.succ_lt_mono; exact Hlt |].
    intros [| j] b Hj Hnth.
    + cbn in Hnth. injection Hnth as <-. exact Hfa.
    + cbn in Hnth. apply (Hbefore j b); [| exact Hnth].
      apply Nat.succ_lt_mono. exact Hj.
Qed.

(** X7.  The item the selection panel shows, read at the index [findIndex]
    gives, is the first item of the result that carries the selected
    identifier; no item before that index carries it, and when no item
    does, or nothing is selected, the panel shows nothing. *)
Theorem panel_shows_first_with_selected_id (a : App.t) :
  selectedItemByIndex a = selectedItem a
  /\ (forall item, selectedItemByIndex a = Some item ->
        App.selectedItemId a = Some (Item.id item))
  /\ (forall r i, App.result a = Some r -> selectedItemIndex a = Some i ->
        (i < List.length (Analysis.items r))%nat
        /\ forall j b, (j < i)%nat -> nth_error (Analysis.items r) j = Some b ->
             id_is (App.selectedItemId a) (Item.id b) = false)
  /\ (App.selectedItemId a = None -> selectedItemByIndex a = None).
Proof.
  assert (Heq : selectedItemByIndex a = selectedItem a).
  { unfold selectedItemByIndex, selectedItem, selectedItemIndex.
    destruct (truthy_string (App.selectedItemId a)); [| reflexivity].
    destruct (App.result a) as [r |]; [| reflexivity].
    symmetry. apply find_by_findIndex. }
  split; [exact Heq | split; [| split]].
  - intros item H. rewrite Heq in H.
    destruct (selectedItem_inv a H) as (_ & r & _ & Hfind).
    exact (id_is_of_found _ _ Hfind).
  - intros r i Hres Hidx. unfold selectedItemIndex in Hidx. rewrite Hres in Hidx.
    exact (findIndex_first _ _ Hidx).
  - intro Hnone. unfold selectedItemByIndex. rewrite Hnone. reflexivity.
Qed.

(** ** Passes and mask edits, composed *)

Lemma updatePhysicalMetrics_overwrites (items : list ItemInstance) (px1 px2 : float) :
  updatePhysicalMetrics (updatePhysicalMetrics items px1) px2
  = updatePhysicalMetrics items px2.
Proof.
  rewrite !updatePhysicalMetrics_map, map_map. apply map_ext. intro s. reflexivity.
Qed.

(** X8.  A later calibration pass replaces an earlier one without residue:
    the page after two passes is the page after the second alone, in the
    scale, the line, and every measurement. *)
Theorem later_pass_overwrites (a : App.t) (p0 p1 q0 q1 : point) :
  handleCalibrationUpdate (handleCalibrationUpdate a p0 p1) q0 q1
  = handleCalibrationUpdate a q0 q1.
Proof.
  destruct a as [st nm img res sel err mode init edit cal].
  unfold handleCalibrationUpdate.
  destruct res as [r |]; cbn -[updatePhysicalMetrics]; [| reflexivity].
  rewrite updatePhysicalMetrics_overwrites. reflexivity.
Qed.

Lemma remask_measured (itemId : string) (m : list point) (items : list ItemInstance)
    (pxMm : float) :
  map (fun i => if String.eqb (Item.id i) itemId then withMask i m else i)
      (updatePhysicalMetrics items pxMm)
  = updatePhysicalMetrics
      (map (fun i => if String.eqb (Item.id i) itemId then withMask i m else i) items)
      pxMm.
Proof.
  rewrite !updatePhysicalMetrics_map, !map_map. apply map_ext. intro s.
  cbn [withMetrics Item.id].
  destruct (String.eqb (Item.id s) itemId); reflexivity.
Qed.

(** X9.  Editing a mask and completing a pass commute: the measurements
    read the box alone, so whichever comes first the page is the same. *)
Theorem mask_edit_commutes_with_pass (a : App.t) (itemId : string)
    (newMask : list point) (p0 p1 : point) :
  handleMaskUpdate (handleCalibrationUpdate a p0 p1) itemId newMask
  = handleCalibrationUpdate (handleMaskUpdate a itemId newMask) p0 p1.
Proof.
  destruct a as [st nm img res sel err mode init edit cal].
  unfold handleCalibrationUpdate, handleMaskUpdate.
  destruct res as [r |]; cbn -[updatePhysicalMetrics]; [| reflexivity].
  rewrite remask_measured. reflexivity.
Qed.

Lemma handleMaskUpdate_result (a : App.t) (itemId : string) (m : list point) :
  App.result (handleMaskUpdate a itemId m)
  = option_map
      (fun r => withItems r
         (map (fun i => if String.eqb (Item.id i) itemId then withMask i m else i)
              (Analysis.items r)))
      (App.result a).
Proof.
  unfold handleMaskUpdate.
  destruct a as [st nm img res sel err mode init edit cal].
  destruct res; reflexivity.
Qed.

(** X10.  A mask update reaches exactly the items that carry the
    identifier: each of them gets the new mask and keeps everything else,
    measurements included; every other item is untouched, as are the order
    and number of items.  The same update twice is the update once. *)
Theorem mask_update_touches_only_named_items (a : App.t) (r : AnalysisResult)
    (itemId : string) (newMask : list point) :
  App.result a = Some r ->
  exists r',
    App.result (handleMaskUpdate a itemId newMask) = Some r'
    /\ Forall2 (fun i i' =>
                  (Item.id i = itemId -> i' = withMask i newMask)
                  /\ (Item.id i <> itemId -> i' = i)
                  /\ sameButMask i i')
               (Analysis.items r) (Analysis.items r')
    /\ Analysis.summary r' = Analysis.summary r
    /\ handleMaskUpdate (handleMaskUpdate a itemId newMask) itemId newMask
       = handleMaskUpdate a itemId newMask.
Proof.
  intro Hres. rewrite handleMaskUpdate_result, Hres. cbn [option_map].
  eexists. split; [reflexivity |]. split; [| split].
  - cbn [withItems Analysis.items]. apply Forall2_map_self. intro i.
    destruct (String.eqb (Item.id i) itemId) eqn:E.
    + apply String.eqb_eq in E. repeat split.
      * intros H. contradiction.
      * unfold sameButMask. destruct i; reflexivity.
    + apply String.eqb_neq in E. repeat split.
      * intro H. contradiction.
      * unfold sameButMask. destruct i; reflexivity.
  - reflexivity.
  - destruct a as [st nm img res sel err mode init edit cal].
    cbn in Hres. subst res. unfold handleMaskUpdate. cbn.
    unfold withItems, App.setResult. cbn. rewrite map_map.
    do 3 f_equal.
    apply map_ext. intro i.
    destruct (String.eqb (Item.id i) itemId) eqn:E; cbn [withMask Item.id];
      rewrite E; reflexivity.
Qed.

Lemma mask_update_touches_only_named_items_witness :
  let a := Sys.app (run Sys.initial toReview) in
  App.result a = Some (analyzeItems [itemA; itemB] 120 PRO)
  /\ exists r',
       App.result (handleMaskUpdate a "b" [Point.mk 1 2]) = Some r'
       /\ Analysis.summary r' = Analysis.summary (analyzeItems [itemA; itemB] 120 PRO).
Proof.
  intro a.
  assert (H : App.result a = Some (analyzeItems [itemA; itemB] 120 PRO)) by reflexivity.
  destruct (mask_update_touches_only_named_items a "b" [Point.mk 1 2] H)
    as (r' & Hr' & _ & Hsum & _).
  exact (conj H (ex_intro _ r' (conj Hr' Hsum))).
Defined.

(** X11.  Clearing the selected mask is the mask update of the selected
    identifier with the empty mask; with nothing selected, or no result,
    it does nothing. *)
Theorem clear_is_update_with_empty_mask (a : App.t) :
  (forall itemId, App.selectedItemId a = Some itemId -> itemId <> ""%string ->
     clearSelectedMask a = handleMaskUpdate a itemId [])
  /\ (truthy_string (App.selectedItemId a) = false -> clearSelectedMask a = a)
  /\ (App.result a = None -> clearSelectedMask a = a).
Proof.
  split; [| split].
  - intros itemId Hsel Hne. unfold clearSelectedMask, handleMaskUpdate.
    rewrite Hsel. cbn [truthy_string id_is].
    destruct (String.eqb itemId "") eqn:E.
    + apply String.eqb_eq in E. contradiction.
    + reflexivity.
  - intro H. unfold clearSelectedMask. rewrite H. reflexivity.
  - intro H. unfold clearSelectedMask. rewrite H.
    destruct (truthy_string _); reflexivity.
Qed.

(** ** Hit testing and not-a-number *)

Lemma SFcompare_self_not_nan (f : spec_float) :
  SFeqb f f = false -> f = S754_nan.
Proof.
  unfold SFeqb. destruct f as [s | s | | s m e]; cbn; try reflexivity.
  - destruct s; discriminate.
  - destruct s; discriminate.
  - destruct s; rewrite Z.compare_refl, Pos.compare_cont_refl; discriminate.
Qed.

(** A comparison that holds has no NaN on either side. *)
Lemma leb_true_no_nan (a b : float) :
  (a <=? b) = true -> is_nan a = false /\ is_nan b = false.
Proof.
  rewrite leb_spec. unfold is_nan. rewrite !FloatAxioms.eqb_spec.
  intro H. split.
  - destruct (SFeqb (Prim2SF a) (Prim2SF a)) eqn:E; [reflexivity |].
    apply SFcompare_self_not_nan in E. rewrite E in H. discriminate.
  - destruct (SFeqb (Prim2SF b) (Prim2SF b)) eqn:E; [reflexivity |].
    apply SFcompare_self_not_nan in E. rewrite E in H.
    destruct (Prim2SF a); discriminate.
Qed.

Lemma hit_has_no_nan (p : point) (items : list ItemInstance)
    (s : Surface.t float) (item : ItemInstance) :
  hitTest p items s = Some item ->
  let '(ymin, xmin, ymax, xmax) := Item.boundingBox item in
  is_nan ymin = false /\ is_nan xmin = false
  /\ is_nan ymax = false /\ is_nan xmax = false
  /\ is_nan (Point.x (toNormalized p s)) = false
  /\ is_nan (Point.y (toNormalized p s)) = false.
Proof.
  unfold hitTest, hitTestNormalized. intro H.
  apply find_some in H. destruct H as [_ H].
  apply contains_inclusive in H.
  destruct (Item.boundingBox item) as [[[ymin xmin] ymax] xmax].
  destruct H as (H1 & H2 & H3 & H4).
  apply leb_true_no_nan in H1, H2, H3, H4.
  repeat split; tauto.
Qed.

(** X12.  Not-a-number never hits and is never hit: the item a hit test
    answers with has no NaN among its four bounds, and the normalized
    pointer it was found under has no NaN coordinate.  So an entry with a
    NaN bound is never hovered, and on a canvas of width 0 the pointer at
    its left edge, whose normalized abscissa is 0/0, hits nothing whatever
    the items are. *)
Theorem nan_never_hits (p : point) (items : list ItemInstance)
    (s : Surface.t float) :
  (forall item,
     hitTest p items s = Some item ->
     let '(ymin, xmin, ymax, xmax) := Item.boundingBox item in
     is_nan ymin = false /\ is_nan xmin = false
     /\ is_nan ymax = false /\ is_nan xmax = false
     /\ is_nan (Point.x (toNormalized p s)) = false
     /\ is_nan (Point.y (toNormalized p s)) = false)
  /\ hitTest (Point.mk 0 (Point.y p)) items (Surface.mk 0 (Surface.height s)) = None.
Proof.
  split; [intro item; apply hit_has_no_nan |].
  destruct (hitTest (Point.mk 0 (Point.y p)) items (Surface.mk 0 (Surface.height s)))
    as [item |] eqn:E; [| reflexivity].
  pose proof (hit_has_no_nan _ _ _ E) as H.
  destruct (Item.boundingBox item) as [[[ymin xmin] ymax] xmax].
  destruct H as (_ & _ & _ & _ & H & _).
  cbn in H. discriminate.
Qed.

(** ** The render pipeline *)

Lemma maskPath_points (i : nat) (mask : list point) (s : Surface.t float) :
  pathPointsOf (maskPath i mask s) = map (fun pt => toRenderSpace pt s) mask.
Proof.
  revert i. induction mask as [| pt rest IH]; intro i; [reflexivity |].
  cbn [maskPath map]. unfold pathPointsOf in *. cbn [flat_map].
  rewrite IH. destruct (i =? 0)%nat; reflexivity.
Qed.

Lemma maskPath_quiet (i : nat) (mask : list point) (s : Surface.t float) :
  textsOf (maskPath i mask s) = []
  /\ filter isSaveRestore (maskPath i mask s) = [].
Proof.
  revert i. induction mask as [| pt rest IH]; intro i; [split; reflexivity |].
  cbn [maskPath]. destruct (IH (S i)) as [IH1 IH2].
  unfold textsOf in *. cbn [flat_map filter].
  destruct (i =? 0)%nat; cbn [isSaveRestore app]; rewrite IH1, IH2; split; reflexivity.
Qed.

Lemma maskHandles_quiet (mask : list point) (s : Surface.t float) :
  textsOf (maskHandles mask s) = []
  /\ filter isSaveRestore (maskHandles mask s) = []
  /\ pathPointsOf (maskHandles mask s) = [].
Proof.
  unfold maskHandles, textsOf, pathPointsOf.
  induction mask as [| pt rest (IH1 & IH2 & IH3)]; [repeat split |].
  cbn [flat_map app filter isSaveRestore]. rewrite IH1, IH2, IH3. repeat split.
Qed.

Lemma pointCaps_quiet (r : float) (pts : list point) :
  textsOf (pointCaps r pts) = []
  /\ filter isSaveRestore (pointCaps r pts) = [].
Proof.
  unfold pointCaps, textsOf.
  induction pts as [| p rest (IH1 & IH2)]; [split; reflexivity |].
  cbn [flat_map app filter isSaveRestore]. rewrite IH1, IH2. split; reflexivity.
Qed.

Lemma itemCmds_saves (props : Props.t) (showMasks showBoxes : bool)
    (st : CanvasState.t) (cv : CanvasElement.t) (s : Surface.t float)
    (index : nat) (item : ItemInstance) :
  filter isSaveRestore (itemCmds props showMasks showBoxes st cv s index item)
  = [Ctx.save; Ctx.restore].
Proof.
  pose proof (maskPath_quiet 0 (Item.mask item) s) as [_ Hp].
  pose proof (maskHandles_quiet (Item.mask item) s) as (_ & Hh & _).
  item_block;
    rewrite ?filter_app, ?Hp, ?Hh; reflexivity.
Qed.


Lemma itemCmds_points (props : Props.t) (showMasks showBoxes : bool)
    (st : CanvasState.t) (cv : CanvasElement.t) (s : Surface.t float)
    (index : nat) (item : ItemInstance) :
  pathPointsOf (itemCmds props showMasks showBoxes st cv s index item)
  = if showMasks then map (fun pt => toRenderSpace pt s) (Item.mask item) else [].
Proof.
  pose proof (maskPath_points 0 (Item.mask item) s) as Hp.
  pose proof (maskHandles_quiet (Item.mask item) s) as (_ & _ & Hh).
  unfold pathPointsOf in *.
  item_block;
    rewrite ?flat_map_app, ?Hp, ?Hh; cbn [flat_map app];
    rewrite ?List.app_nil_r; reflexivity.
Qed.

Lemma itemCmds_masks_hidden (props : Props.t) (showBoxes : bool)
    (st : CanvasState.t) (cv : CanvasElement.t) (s : Surface.t float)
    (index : nat) (item : ItemInstance) :
  filter isPathCall (itemCmds props false showBoxes st cv s index item) = [].
Proof. item_block; reflexivity. Qed.

Lemma itemsCmds_saves (props : Props.t) (showMasks showBoxes : bool)
    (st : CanvasState.t) (cv : CanvasElement.t) (s : Surface.t float)
    (index : nat) (items : list ItemInstance) :
  filter isSaveRestore (itemsCmds props showMasks showBoxes st cv s index items)
  = List.concat (repeat [Ctx.save; Ctx.restore] (List.length items)).
Proof.
  revert index. induction items as [| item rest IH]; intro index; [reflexivity |].
  cbn [itemsCmds List.length repeat List.concat].
  rewrite filter_app, itemCmds_saves, IH. reflexivity.
Qed.


Lemma itemsCmds_points (props : Props.t) (showMasks showBoxes : bool)
    (st : CanvasState.t) (cv : CanvasElement.t) (s : Surface.t float)
    (index : nat) (items : list ItemInstance) :
  pathPointsOf (itemsCmds props showMasks showBoxes st cv s index items)
  = if showMasks
    then flat_map (fun item => map (fun pt => toRenderSpace pt s) (Item.mask item)) items
    else [].
Proof.
  revert index. induction items as [| item rest IH]; intro index.
  - destruct showMasks; reflexivity.
  - cbn [itemsCmds]. unfold pathPointsOf at 1. rewrite flat_map_app.
    fold (pathPointsOf (itemCmds props showMasks showBoxes st cv s index item)).
    fold (pathPointsOf (itemsCmds props showMasks showBoxes st cv s (S index) rest)).
    rewrite itemCmds_points, IH. destruct showMasks; reflexivity.
Qed.

Lemma itemsCmds_masks_hidden (props : Props.t) (showBoxes : bool)
    (st : CanvasState.t) (cv : CanvasElement.t) (s : Surface.t float)
    (index : nat) (items : list ItemInstance) :
  filter isPathCall (itemsCmds props false showBoxes st cv s index items) = [].
Proof.
  revert index. induction items as [| item rest IH]; intro index; [reflexivity |].
  cbn [itemsCmds]. rewrite filter_app, itemCmds_masks_hidden, IH. reflexivity.
Qed.

Lemma saveDepth_filter (d : nat) (cmds : list Ctx.cmd) :
  saveDepth d cmds = saveDepth d (filter isSaveRestore cmds).
Proof.
  revert d. induction cmds as [| c rest IH]; intro d; [reflexivity |].
  destruct c; cbn [saveDepth filter isSaveRestore]; try apply IH.
  destruct d; [reflexivity | apply IH].
Qed.

Lemma saveDepth_pairs (d k : nat) :
  saveDepth d (List.concat (repeat [Ctx.save; Ctx.restore] k)) = Some d.
Proof.
  induction k as [| k IH]; [reflexivity |].
  cbn [repeat List.concat app saveDepth]. exact IH.
Qed.

Lemma calibrationLineCmds_saves (props : Props.t) :
  exists k, filter isSaveRestore (calibrationLineCmds props)
            = List.concat (repeat [Ctx.save; Ctx.restore] k).
Proof.
  unfold calibrationLineCmds.
  destruct (Calibration.startPoint (Props.calibration props)),
           (Calibration.endPoint (Props.calibration props)),
           (Props.isCalibrating props);
    try (exists 0%nat; reflexivity).
  exists 1%nat. reflexivity.
Qed.

Lemma calibrationOverlayCmds_quiet (props : Props.t) (st : CanvasState.t)
    (s : Surface.t float) :
  filter isSaveRestore (calibrationOverlayCmds props st s) = []
  /\ textsOf (calibrationOverlayCmds props st s) = [].
Proof.
  unfold calibrationOverlayCmds.
  destruct (Props.isCalibrating props); [| split; reflexivity].
  destruct (CanvasState.calPoints st) as [| first others]; [split; reflexivity |].
  pose proof (pointCaps_quiet 8 (first :: others)) as [Ht Hf].
  unfold textsOf in *.
  destruct others as [| second [| third more]];
    cbn [app filter isSaveRestore flat_map];
    rewrite ?filter_app, ?flat_map_app; cbn [app filter isSaveRestore flat_map];
    rewrite ?Hf, ?Ht; split; reflexivity.
Qed.

Lemma concat_pairs_app (j k : nat) :
  List.concat (repeat [Ctx.save; Ctx.restore] j) ++ List.concat (repeat [Ctx.save; Ctx.restore] k)
  = List.concat (repeat [Ctx.save; Ctx.restore] (j + k)).
Proof.
  induction j as [| j IH]; [reflexivity |].
  cbn [repeat List.concat Nat.add]. rewrite <- IH. reflexivity.
Qed.

(** A frame, when there is one, is four layers in this order: the image,
    the items, the line of the last pass, the calibration overlay. *)
Lemma render_layers (props : Props.t) (showMasks showBoxes : bool)
    (st : CanvasState.t) (canvasRef : option CanvasElement.t)
    (imgRef : option ImageElement.t) (s : Surface.t float) (cmds : list Ctx.cmd) :
  render props showMasks showBoxes st canvasRef imgRef = Some (s, cmds) ->
  exists cv img,
    canvasRef = Some cv /\ imgRef = Some img
    /\ CanvasElement.hasContext cv = true
    /\ s = sizedSurface cv img
    /\ cmds = [ Ctx.clearRect 0 0 (Surface.width s) (Surface.height s);
                Ctx.drawImage 0 0 (Surface.width s) (Surface.height s) ]
              ++ itemLayer props showMasks showBoxes st cv s
              ++ calibrationLineCmds props
              ++ calibrationOverlayCmds props st s.
Proof.
  unfold render.
  destruct canvasRef as [cv |]; [| discriminate].
  destruct imgRef as [img |]; [| discriminate].
  destruct (CanvasElement.hasContext cv) eqn:Hctx; [| discriminate].
  intros [= <- <-]. exists cv, img. repeat split. exact Hctx.
Qed.

Lemma itemLayer_saves (props : Props.t) (showMasks showBoxes : bool)
    (st : CanvasState.t) (cv : CanvasElement.t) (s : Surface.t float) :
  exists k, filter isSaveRestore (itemLayer props showMasks showBoxes st cv s)
            = List.concat (repeat [Ctx.save; Ctx.restore] k).
Proof.
  unfold itemLayer.
  destruct (Props.result props) as [r |], (Props.isCalibrating props);
    try (exists 0%nat; reflexivity).
  eexists. apply itemsCmds_saves.
Qed.

(** X13.  Every frame leaves the context's state stack as it found it:
    each [save] is answered by a [restore] before the next [save], so the
    saves never nest and none is left open. *)
Theorem render_balances_save_restore (props : Props.t) (showMasks showBoxes : bool)
    (st : CanvasState.t) (canvasRef : option CanvasElement.t)
    (imgRef : option ImageElement.t) (s : Surface.t float) (cmds : list Ctx.cmd) :
  render props showMasks showBoxes st canvasRef imgRef = Some (s, cmds) ->
  saveDepth 0 cmds = Some 0%nat
  /\ exists k, filter isSaveRestore cmds = List.concat (repeat [Ctx.save; Ctx.restore] k).
Proof.
  intro H. destruct (render_layers _ _ _ _ _ _ H) as (cv & img & _ & _ & _ & _ & ->).
  destruct (itemLayer_saves props showMasks showBoxes st cv s) as [j Hj].
  destruct (calibrationLineCmds_saves props) as [k Hk].
  assert (Hf : filter isSaveRestore
                 ([ Ctx.clearRect 0 0 (Surface.width s) (Surface.height s);
                    Ctx.drawImage 0 0 (Surface.width s) (Surface.height s) ]
                  ++ itemLayer props showMasks showBoxes st cv s
                  ++ calibrationLineCmds props
                  ++ calibrationOverlayCmds props st s)
               = List.concat (repeat [Ctx.save; Ctx.restore] (j + k))).
  { rewrite !filter_app, Hj, Hk,
      (proj1 (calibrationOverlayCmds_quiet props st s)), List.app_nil_r.
    cbn [filter isSaveRestore app]. apply concat_pairs_app. }
  split; [| exists (j + k)%nat; exact Hf].
  rewrite saveDepth_filter, Hf. apply saveDepth_pairs.
Qed.

Lemma render_balances_save_restore_witness :
  exists s cmds,
    editingFrame = Some (s, cmds)
    /\ saveDepth 0 cmds = Some 0%nat.
Proof.
  destruct editingFrame as [[s cmds] |] eqn:E; [| discriminate E].
  exists s, cmds. split; [reflexivity |].
  exact (proj1 (render_balances_save_restore _ _ _ _ _ _ E)).
Defined.







Lemma pointCaps_points (r : float) (pts : list point) :
  pathPointsOf (pointCaps r pts) = [].
Proof.
  unfold pointCaps, pathPointsOf.
  induction pts as [| p rest IH]; [reflexivity |].
  cbn [flat_map app]. exact IH.
Qed.

Lemma calibrationLineCmds_points (props : Props.t) :
  Props.isCalibrating props = false ->
  pathPointsOf (calibrationLineCmds props)
  = match Calibration.startPoint (Props.calibration props),
          Calibration.endPoint (Props.calibration props) with
    | Some startPoint, Some endPoint => [startPoint; endPoint]
    | _, _ => []
    end.
Proof.
  intro Hcal. unfold calibrationLineCmds. rewrite Hcal.
  destruct (Calibration.startPoint (Props.calibration props)) as [[x0 y0] |],
           (Calibration.endPoint (Props.calibration props)) as [[x1 y1] |];
    reflexivity.
Qed.

(** X15.  In a review frame the polygon of every item goes through its
    mask vertices taken to the surface of the frame by the coordinate
    transform, one path point per vertex, in mask and result order, and
    only when masks are shown; the line of the last pass follows, between
    its two end points as they were clicked, untransformed. *)
Theorem polygons_follow_the_masks (props : Props.t) (showMasks showBoxes : bool)
    (st : CanvasState.t) (canvasRef : option CanvasElement.t)
    (imgRef : option ImageElement.t) (s : Surface.t float) (cmds : list Ctx.cmd)
    (r : AnalysisResult) :
  render props showMasks showBoxes st canvasRef imgRef = Some (s, cmds) ->
  Props.isCalibrating props = false ->
  Props.result props = Some r ->
  pathPointsOf cmds
  = (if showMasks
     then flat_map (fun item => map (fun pt => toRenderSpace pt s) (Item.mask item))
                   (Analysis.items r)
     else [])
    ++ match Calibration.startPoint (Props.calibration props),
             Calibration.endPoint (Props.calibration props) with
       | Some startPoint, Some endPoint => [startPoint; endPoint]
       | _, _ => []
       end.
Proof.
  intros H Hcal Hres.
  destruct (render_layers _ _ _ _ _ _ H) as (cv & img & _ & _ & _ & _ & ->).
  unfold pathPointsOf. rewrite !flat_map_app.
  fold (pathPointsOf (itemLayer props showMasks showBoxes st cv s)).
  fold (pathPointsOf (calibrationLineCmds props)).
  rewrite (calibrationLineCmds_points props Hcal).
  unfold itemLayer, calibrationOverlayCmds. rewrite Hres, Hcal.
  rewrite itemsCmds_points. cbn [flat_map app]. rewrite List.app_nil_r.
  reflexivity.
Qed.

Lemma polygons_follow_the_masks_witness :
  exists s cmds,
    editingFrame = Some (s, cmds)
    /\ pathPointsOf cmds = [Point.mk 0 0; Point.mk 10 0].
Proof.
  destruct editingFrame as [[s cmds] |] eqn:E; [| discriminate E].
  exists s, cmds. split; [reflexivity |].
  rewrite (polygons_follow_the_masks _ _ _ _ _ _ E eq_refl eq_refl).
  revert E. unfold editingFrame. cbn. intros [= <- _]. reflexivity.
Defined.

(** X16.  With masks hidden no item is given a path: a review frame then
    holds no path call beyond those of the line of the last pass, so the
    polygons and also the vertex handles of edit mode are not drawn, for
    the selected item as for any other. *)
Theorem hidden_masks_hide_handles (props : Props.t) (showBoxes : bool)
    (st : CanvasState.t) (canvasRef : option CanvasElement.t)
    (imgRef : option ImageElement.t) (s : Surface.t float) (cmds : list Ctx.cmd) :
  render props false showBoxes st canvasRef imgRef = Some (s, cmds) ->
  Props.isCalibrating props = false ->
  filter isPathCall cmds = filter isPathCall (calibrationLineCmds props).
Proof.
  intros H Hcal.
  destruct (render_layers _ _ _ _ _ _ H) as (cv & img & _ & _ & _ & _ & ->).
  rewrite !filter_app. cbn [filter isPathCall app].
  unfold itemLayer, calibrationOverlayCmds. rewrite Hcal.
  destruct (Props.result props) as [r |]; cbn [filter];
    rewrite ?itemsCmds_masks_hidden, List.app_nil_r; reflexivity.
Qed.

Lemma hidden_masks_hide_handles_witness :
  let st := run Sys.initial toEditing in
  exists s cmds,
    render (propsOf (Sys.app st)) false true (Sys.canvas st)
           (Some plainCanvas) (Some squareImage) = Some (s, cmds)
    /\ Props.editMode (propsOf (Sys.app st)) = true
    /\ filter isPathCall cmds = [].
Proof.
  intro st.
  destruct (render (propsOf (Sys.app st)) false true (Sys.canvas st)
                   (Some plainCanvas) (Some squareImage)) as [[s cmds] |] eqn:E;
    [| discriminate E].
  exists s, cmds. split; [reflexivity |]. split; [reflexivity |].
  rewrite (hidden_masks_hide_handles _ _ _ _ _ E eq_refl). reflexivity.
Defined.

(** X17.  What a frame depends on.  While calibrating, the frame is the
    image, the dimming and the buffered points: the result, the selection,
    the hover, the layer switches, edit mode and the stored calibration
    play no part.  While reviewing, the click buffer plays no part, so a
    point left in it is not shown. *)
Theorem frames_depend_on_mode (props props' : Props.t)
    (showMasks showBoxes showMasks' showBoxes' : bool)
    (st st' : CanvasState.t) (canvasRef : option CanvasElement.t)
    (imgRef : option ImageElement.t) :
  (Props.isCalibrating props = true ->
   Props.isCalibrating props' = true ->
   CanvasState.calPoints st = CanvasState.calPoints st' ->
   render props showMasks showBoxes st canvasRef imgRef
   = render props' showMasks' showBoxes' st' canvasRef imgRef)
  /\ (Props.isCalibrating props = false ->
      CanvasState.hoveredItemId st = CanvasState.hoveredItemId st' ->
      render props showMasks showBoxes st canvasRef imgRef
      = render props showMasks showBoxes st' canvasRef imgRef).
Proof.
  split.
  - intros Hc Hc' Hpts. unfold render.
    destruct canvasRef as [cv |]; [| reflexivity].
    destruct imgRef as [img |]; [| reflexivity].
    destruct (CanvasElement.hasContext cv); [| reflexivity].
    unfold calibrationLineCmds, calibrationOverlayCmds.
    rewrite Hc, Hc', Hpts.
    destruct (Props.result props), (Props.result props'),
             (Calibration.startPoint (Props.calibration props)),
             (Calibration.endPoint (Props.calibration props)),
             (Calibration.startPoint (Props.calibration props')),
             (Calibration.endPoint (Props.calibration props'));
      reflexivity.
  - intros Hc Hhov. unfold render.
    destruct canvasRef as [cv |]; [| reflexivity].
    destruct imgRef as [img |]; [| reflexivity].
    destruct (CanvasElement.hasContext cv); [| reflexivity].
    unfold calibrationOverlayCmds. rewrite Hc.
    destruct (Props.result props) as [r |]; [| reflexivity].
    destruct st as [h pts], st' as [h' pts']. cbn in Hhov. subst h'.
    assert (Hitems : forall index items,
               itemsCmds props showMasks showBoxes (CanvasState.mk h pts) cv
                         (sizedSurface cv img) index items
               = itemsCmds props showMasks showBoxes (CanvasState.mk h pts') cv
                           (sizedSurface cv img) index items).
    { intros index items. revert index.
      induction items as [| item rest IH]; intro index; [reflexivity |].
      cbn [itemsCmds]. rewrite IH. reflexivity. }
    cbv zeta. rewrite Hitems. reflexivity.
Qed.

(** ** Editing, click after click *)





(** ** A reference length that is not a number *)

Lemma div_nan (v : float) : v / nan = nan.
Proof.
  rewrite <- (SF2Prim_Prim2SF (v / nan)), div_spec.
  replace (Prim2SF nan) with S754_nan by reflexivity.
  destruct (Prim2SF v); reflexivity.
Qed.

(** X19.  With a reference length that is not a number, a completed pass
    publishes NaN as the scale, whatever the two points, and every item of
    the result comes out with NaN as width and as height. *)
Theorem nan_reference_poisons_measurements (a : App.t) (p0 p1 : point) :
  Calibration.referenceLengthMm (App.calibration a) = nan ->
  Calibration.pixelsPerMm (App.calibration (handleCalibrationUpdate a p0 p1))
  = Some nan
  /\ forall r', App.result (handleCalibrationUpdate a p0 p1) = Some r' ->
       Forall (fun i => Item.widthMm i = Some nan /\ Item.heightMm i = Some nan)
              (Analysis.items r').
Proof.
  intro Href. rewrite handleCalibrationUpdate_calibration, Href, div_nan.
  split; [reflexivity |].
  intros r' Hr'. rewrite handleCalibrationUpdate_result, Href, div_nan in Hr'.
  destruct (App.result a) as [r |]; [| discriminate].
  cbn [option_map] in Hr'. injection Hr' as <-.
  cbn [withItems Analysis.items]. rewrite updatePhysicalMetrics_map.
  apply Forall_map. apply Forall_forall. intros i _.
  cbn [withMetrics Item.widthMm Item.heightMm]. rewrite !div_nan.
  split; reflexivity.
Qed.

Lemma nan_reference_poisons_measurements_witness :
  let a := Sys.app (run Sys.initial (toReview ++ [TypeReferenceLength nan])) in
  Calibration.referenceLengthMm (App.calibration a) = nan
  /\ Calibration.pixelsPerMm
       (App.calibration (handleCalibrationUpdate a (Point.mk 0 0) (Point.mk 30 40)))
     = Some nan.
Proof.
  intro a.
  assert (H : Calibration.referenceLengthMm (App.calibration a) = nan) by reflexivity.
  exact (conj H (proj1 (nan_reference_poisons_measurements a (Point.mk 0 0)
                          (Point.mk 30 40) H))).
Defined.

(** ** Clicking the same point twice *)





